(** * The path-time neighbourhood of the lattice planner

    A shallow embedding of
    [modules/planning/lattice/behavior_decider/path_time_neighborhood.cc]:
    the constructor [PathTimeNeighborhood], the build pass [SetupObstacles],
    the helpers [SetPathTimePoint] and [SpeedOnReferenceLine], and the two
    queries [GetPathTimeObstacles] and [GetPathTimeObstacle].

    Modelling choices.
    - A C++ [double] is a rational ([Q]); infinities and NaN are outside the
      model.  Comparisons, [std::abs], [std::min] and [std::max] are exact on
      doubles and are modelled as such.  The sum and the product of two
      doubles are rounded: they are parameters ([DoubleArith]), as are
      [std::cos] and [std::sin].
    - [path_time_obstacle_map_] is a [gmap string PathTimeObstacle]; the
      member is threaded explicitly through the build pass.
    - The [while] loop of the build pass is run with fuel; a run that uses
      up its fuel hands back the state it had reached ([OutOfFuel]).
    - The protobuf messages keep the fields the code reads or writes, with
      protobuf's defaults (empty string, zero).
    - The constants of [lattice_params.h], the obstacle and reference-line
      classes and [ReferenceLineMatcher] are not part of this file of the
      repository; they are parameters of the development. *)

From Stdlib Require Import QArith Qabs Lqa.
From stdpp Require Import gmap strings list fin_maps.

Local Open Scope Q_scope.

(** ** Comparisons on doubles *)

(** [a < b] as the code tests it. *)
Definition Qltb (a b : Q) : bool := negb (Qle_bool b a).

(** [std::max(a, b)] is [(a < b) ? b : a]; [std::min(a, b)] is
    [(b < a) ? b : a]. *)
Definition std_max (a b : Q) : Q := if Qltb a b then b else a.
Definition std_min (a b : Q) : Q := if Qltb b a then b else a.

(** ** Protobuf messages *)

Record PathTimePoint := {
  pt_obstacle_id : string;
  pt_s : Q;
  pt_t : Q
}.

Record PathTimeObstacle := {
  obstacle_id : string;
  bottom_left : PathTimePoint;
  upper_left : PathTimePoint;
  bottom_right : PathTimePoint;
  upper_right : PathTimePoint;
  path_lower : Q;
  path_upper : Q;
  time_lower : Q;
  time_upper : Q
}.

Record SLBoundary := {
  start_s : Q;
  end_s : Q;
  start_l : Q;
  end_l : Q
}.

Record PathPoint := { theta : Q }.

Record Point3D := { p_x : Q; p_y : Q; p_z : Q }.

Record PerceptionObstacle := { velocity : Point3D }.

Definition default_PathTimePoint : PathTimePoint :=
  {| pt_obstacle_id := ""; pt_s := 0; pt_t := 0 |}.

Definition default_PathTimeObstacle : PathTimeObstacle :=
  {| obstacle_id := "";
     bottom_left := default_PathTimePoint;
     upper_left := default_PathTimePoint;
     bottom_right := default_PathTimePoint;
     upper_right := default_PathTimePoint;
     path_lower := 0; path_upper := 0; time_lower := 0; time_upper := 0 |}.

(** The generated setters, one per field written by the code. *)
Definition set_obstacle_id (id : string) (r : PathTimeObstacle) :=
  {| obstacle_id := id;
     bottom_left := bottom_left r; upper_left := upper_left r;
     bottom_right := bottom_right r; upper_right := upper_right r;
     path_lower := path_lower r; path_upper := path_upper r;
     time_lower := time_lower r; time_upper := time_upper r |}.

Definition set_bottom_left (p : PathTimePoint) (r : PathTimeObstacle) :=
  {| obstacle_id := obstacle_id r;
     bottom_left := p; upper_left := upper_left r;
     bottom_right := bottom_right r; upper_right := upper_right r;
     path_lower := path_lower r; path_upper := path_upper r;
     time_lower := time_lower r; time_upper := time_upper r |}.

Definition set_upper_left (p : PathTimePoint) (r : PathTimeObstacle) :=
  {| obstacle_id := obstacle_id r;
     bottom_left := bottom_left r; upper_left := p;
     bottom_right := bottom_right r; upper_right := upper_right r;
     path_lower := path_lower r; path_upper := path_upper r;
     time_lower := time_lower r; time_upper := time_upper r |}.

Definition set_bottom_right (p : PathTimePoint) (r : PathTimeObstacle) :=
  {| obstacle_id := obstacle_id r;
     bottom_left := bottom_left r; upper_left := upper_left r;
     bottom_right := p; upper_right := upper_right r;
     path_lower := path_lower r; path_upper := path_upper r;
     time_lower := time_lower r; time_upper := time_upper r |}.

Definition set_upper_right (p : PathTimePoint) (r : PathTimeObstacle) :=
  {| obstacle_id := obstacle_id r;
     bottom_left := bottom_left r; upper_left := upper_left r;
     bottom_right := bottom_right r; upper_right := p;
     path_lower := path_lower r; path_upper := path_upper r;
     time_lower := time_lower r; time_upper := time_upper r |}.

Definition set_path_lower (x : Q) (r : PathTimeObstacle) :=
  {| obstacle_id := obstacle_id r;
     bottom_left := bottom_left r; upper_left := upper_left r;
     bottom_right := bottom_right r; upper_right := upper_right r;
     path_lower := x; path_upper := path_upper r;
     time_lower := time_lower r; time_upper := time_upper r |}.

Definition set_path_upper (x : Q) (r : PathTimeObstacle) :=
  {| obstacle_id := obstacle_id r;
     bottom_left := bottom_left r; upper_left := upper_left r;
     bottom_right := bottom_right r; upper_right := upper_right r;
     path_lower := path_lower r; path_upper := x;
     time_lower := time_lower r; time_upper := time_upper r |}.

Definition set_time_lower (x : Q) (r : PathTimeObstacle) :=
  {| obstacle_id := obstacle_id r;
     bottom_left := bottom_left r; upper_left := upper_left r;
     bottom_right := bottom_right r; upper_right := upper_right r;
     path_lower := path_lower r; path_upper := path_upper r;
     time_lower := x; time_upper := time_upper r |}.

Definition set_time_upper (x : Q) (r : PathTimeObstacle) :=
  {| obstacle_id := obstacle_id r;
     bottom_left := bottom_left r; upper_left := upper_left r;
     bottom_right := bottom_right r; upper_right := upper_right r;
     path_lower := path_lower r; path_upper := path_upper r;
     time_lower := time_lower r; time_upper := x |}.

(** ** The map member and [operator[]] *)

Abbreviation obstacle_map := (gmap string PathTimeObstacle).

(** [m[id]]: the entry under [id], default-inserted when [id] is no key. *)
Definition map_index (m : obstacle_map) (id : string)
  : PathTimeObstacle * obstacle_map :=
  match m !! id with
  | Some r => (r, m)
  | None => (default_PathTimeObstacle, <[id := default_PathTimeObstacle]> m)
  end.

(** A write through the reference returned by [m[id]]. *)
Definition map_mutate (m : obstacle_map) (id : string)
    (f : PathTimeObstacle → PathTimeObstacle) : obstacle_map :=
  let '(r, m') := map_index m id in <[id := f r]> m'.

(** ** Runs of a loop that may not end *)

(** A run either finishes with a value, or uses up its fuel; in the second
    case it hands back the map it had reached. *)
Inductive outcome (A : Type) : Type :=
  | Finished (a : A)
  | OutOfFuel (m : obstacle_map).
Arguments Finished {A} a.
Arguments OutOfFuel {A} m.

(** The map a run holds when it stops, finished or not. *)
Definition reached_map (x : outcome obstacle_map) : obstacle_map :=
  match x with Finished m => m | OutOfFuel m => m end.

Definition finished {A : Type} (x : outcome A) : bool :=
  match x with Finished _ => true | OutOfFuel _ => false end.

(** ** What the file takes from the rest of the repository *)

(** The constants of [lattice_params.h]. *)
Class LatticeParams := {
  planned_trajectory_time : Q;
  planned_trajectory_horizon : Q;
  trajectory_time_resolution : Q;
  lateral_enter_lane_thred : Q
}.

(** The rounded sum and product of two doubles.  The product of IEEE
    arithmetic does not depend on the order of its factors. *)
Class DoubleArith := {
  dadd : Q → Q → Q;
  dmul : Q → Q → Q;
  dmul_comm : ∀ a b, dmul a b = dmul b a
}.

(** [std::cos] and [std::sin] on doubles. *)
Class MathLib := {
  cos : Q → Q;
  sin : Q → Q
}.

(** [ReferenceLineMatcher::MatchToReferenceLine]. *)
Class ReferenceLineMatcher := {
  MatchToReferenceLine : list PathPoint → Q → PathPoint
}.

(** ** The build pass *)

Section Neighborhood.

(** Types of the prediction and geometry modules. *)
Context {TrajectoryPoint Box2d : Type}.
Context {params : LatticeParams} {arith : DoubleArith} {math : MathLib}
  {matcher : ReferenceLineMatcher}.

(** What the build pass uses of an [Obstacle]. *)
Record Obstacle := {
  Id : string;
  trajectory_point_size : nat;
  GetPointAtTime : Q → TrajectoryPoint;
  GetBoundingBox : TrajectoryPoint → Box2d;
  Perception : PerceptionObstacle
}.

(** [GetSLBoundary(box, &sl_boundary)]: the boundary left in the out
    parameter. *)
Record ReferenceLine := { GetSLBoundary : Box2d → SLBoundary }.

Record Frame := { obstacles : list Obstacle }.

(** [std::array<double, 3>] and its element 0. *)
Definition array3 : Type := Q * Q * Q.
Definition at0 (a : array3) : Q := a.1.1.

(** The object: its two data members. *)
Record Neighborhood := {
  init_s_ : array3;
  path_time_obstacle_map_ : obstacle_map
}.

Definition SetPathTimePoint (obstacle_id : string) (s t : Q) : PathTimePoint :=
  {| pt_obstacle_id := obstacle_id; pt_s := s; pt_t := t |}.

Definition SpeedOnReferenceLine (discretized_ref_points : list PathPoint)
    (obstacle : Obstacle) (sl_boundary : SLBoundary) : Q :=
  let obstacle_point_on_ref_line :=
    MatchToReferenceLine discretized_ref_points (start_s sl_boundary) in
  let perception_obstacle := Perception obstacle in
  let ref_theta := theta obstacle_point_on_ref_line in
  let velocity := velocity perception_obstacle in
  let v :=
    dadd (dmul (cos ref_theta) (p_x velocity))
         (dmul (sin ref_theta) (p_y velocity)) in
  v.

(** The condition of lines 77-80: the obstacle is not shown on the region
    to be considered. *)
Definition not_in_region (init_s : array3) (sl_boundary : SLBoundary) : bool :=
  Qltb (end_s sl_boundary) 0
  || Qltb (dadd (at0 init_s) planned_trajectory_horizon) (start_s sl_boundary)
  || (Qltb lateral_enter_lane_thred (Qabs (start_l sl_boundary))
      && Qltb lateral_enter_lane_thred (Qabs (end_l sl_boundary))).

(** The boundary of [obstacle] sampled at [relative_time] (lines 59-64). *)
Definition sl_boundary_at (reference_line : ReferenceLine)
    (obstacle : Obstacle) (relative_time : Q) : SLBoundary :=
  let point := GetPointAtTime obstacle relative_time in
  let box := GetBoundingBox obstacle point in
  GetSLBoundary reference_line box.

(** How one pass through the body of the [while] loop ends: by [break], or
    at the loop test again ([continue], or the end of the body). *)
Inductive control := Break | Next.

(** Lines 93-108: the writes of a sample that is in the region. *)
Definition record_sample (id : string) (sl_boundary : SLBoundary)
    (relative_time : Q) (m : obstacle_map) : obstacle_map :=
  let m :=
    match m !! id with
    | None =>
        let m := map_mutate m id (set_obstacle_id id) in
        let m := map_mutate m id
          (set_bottom_left (SetPathTimePoint id (start_s sl_boundary) relative_time)) in
        map_mutate m id
          (set_upper_left (SetPathTimePoint id (end_s sl_boundary) relative_time))
    | Some _ => m
    end in
  let m := map_mutate m id
    (set_bottom_right (SetPathTimePoint id (start_s sl_boundary) relative_time)) in
  map_mutate m id
    (set_upper_right (SetPathTimePoint id (end_s sl_boundary) relative_time)).

(** Lines 59-108: one pass through the body, from [relative_time] and the
    map [m] to the control outcome, the new [relative_time] and the new map.
    The path of a sample in the region reaches the end of the body without
    changing [relative_time]. *)
Definition loop_body (init_s : array3) (reference_line : ReferenceLine)
    (discretized_ref_points : list PathPoint) (obstacle : Obstacle)
    (relative_time : Q) (m : obstacle_map) : control * Q * obstacle_map :=
  let sl_boundary := sl_boundary_at reference_line obstacle relative_time in
  if not_in_region init_s sl_boundary then
    match m !! Id obstacle with
    | Some _ => (Break, relative_time, m)
    | None => (Next, dadd relative_time trajectory_time_resolution, m)
    end
  else
    let v := SpeedOnReferenceLine discretized_ref_points obstacle sl_boundary in
    (Next, relative_time, record_sample (Id obstacle) sl_boundary relative_time m).

(** Lines 58-109: the [while] loop, with at most [fuel] passes through its
    body. *)
Fixpoint sampling_loop (fuel : nat) (init_s : array3)
    (reference_line : ReferenceLine) (discretized_ref_points : list PathPoint)
    (obstacle : Obstacle) (relative_time : Q) (m : obstacle_map)
  : outcome (Q * obstacle_map) :=
  if Qltb relative_time planned_trajectory_time then
    match fuel with
    | O => OutOfFuel m
    | S fuel' =>
        match loop_body init_s reference_line discretized_ref_points
                obstacle relative_time m with
        | (Break, relative_time', m') => Finished (relative_time', m')
        | (Next, relative_time', m') =>
            sampling_loop fuel' init_s reference_line discretized_ref_points
              obstacle relative_time' m'
        end
    end
  else Finished (relative_time, m).

(** Lines 53-110: the body of the loop over the obstacles.  The increment
    of line 110 comes after the [while] loop. *)
Definition process_obstacle (fuel : nat) (init_s : array3)
    (reference_line : ReferenceLine) (discretized_ref_points : list PathPoint)
    (obstacle : Obstacle) (m : obstacle_map) : outcome obstacle_map :=
  if Nat.eqb (trajectory_point_size obstacle) 0 then Finished m
  else
    match sampling_loop fuel init_s reference_line discretized_ref_points
            obstacle 0 m with
    | Finished (relative_time, m') =>
        let relative_time := dadd relative_time trajectory_time_resolution in
        Finished m'
    | OutOfFuel m' => OutOfFuel m'
    end.

(** Lines 52-111. *)
Fixpoint for_obstacles (fuel : nat) (init_s : array3)
    (reference_line : ReferenceLine) (discretized_ref_points : list PathPoint)
    (obstacles : list Obstacle) (m : obstacle_map) : outcome obstacle_map :=
  match obstacles with
  | [] => Finished m
  | obstacle :: rest =>
      match process_obstacle fuel init_s reference_line
              discretized_ref_points obstacle m with
      | Finished m' =>
          for_obstacles fuel init_s reference_line discretized_ref_points
            rest m'
      | OutOfFuel m' => OutOfFuel m'
      end
  end.

(** Lines 114-132: the bounds of one entry. *)
Definition set_bounds (r : PathTimeObstacle) : PathTimeObstacle :=
  let s_upper := std_max (pt_s (bottom_right r)) (pt_s (upper_right r)) in
  let s_lower := std_min (pt_s (bottom_left r)) (pt_s (upper_left r)) in
  let r := set_path_lower s_lower r in
  let r := set_path_upper s_upper r in
  let t_upper := std_max (pt_t (bottom_right r)) (pt_t (upper_right r)) in
  let t_lower := std_min (pt_t (bottom_left r)) (pt_t (upper_left r)) in
  let r := set_time_lower t_lower r in
  set_time_upper t_upper r.

(** [SetupObstacles]: the loop over the obstacles, then the loop over the
    entries of the map. *)
Definition SetupObstacles (fuel : nat) (init_s : array3) (frame : Frame)
    (reference_line : ReferenceLine) (discretized_ref_points : list PathPoint)
    (m : obstacle_map) : outcome obstacle_map :=
  match for_obstacles fuel init_s reference_line discretized_ref_points
          (obstacles frame) m with
  | Finished m' => Finished (set_bounds <$> m')
  | OutOfFuel m' => OutOfFuel m'
  end.

(** The constructor: the map member starts empty. *)
Definition PathTimeNeighborhood (fuel : nat) (frame : Frame) (init_s : array3)
    (reference_line : ReferenceLine) (discretized_ref_points : list PathPoint)
  : outcome Neighborhood :=
  match SetupObstacles fuel init_s frame reference_line
          discretized_ref_points ∅ with
  | Finished m => Finished {| init_s_ := init_s; path_time_obstacle_map_ := m |}
  | OutOfFuel m => OutOfFuel m
  end.

(** ** The queries *)

Definition GetPathTimeObstacles (this : Neighborhood) : list PathTimeObstacle :=
  (map_to_list (path_time_obstacle_map_ this)).*2.

(** [GetPathTimeObstacle(obstacle_id, path_time_obstacle)]: the returned
    flag, the content of the out parameter, and the object afterwards (the
    method is not [const], and [operator[]] may insert). *)
Definition GetPathTimeObstacle (this : Neighborhood) (obstacle_id : string)
    (path_time_obstacle : PathTimeObstacle)
  : bool * PathTimeObstacle * Neighborhood :=
  match path_time_obstacle_map_ this !! obstacle_id with
  | None => (false, path_time_obstacle, this)
  | Some _ =>
      let '(r, m) := map_index (path_time_obstacle_map_ this) obstacle_id in
      (true, r, {| init_s_ := init_s_ this; path_time_obstacle_map_ := m |})
  end.

(** ** Vocabulary of the properties *)

(** The region left under [id] by the writes of a sample, from what was
    under [id] before. *)
Definition written (id : string) (sl_boundary : SLBoundary) (relative_time : Q)
    (before : option PathTimeObstacle) : PathTimeObstacle :=
  let r :=
    match before with
    | None =>
        set_upper_left (SetPathTimePoint id (end_s sl_boundary) relative_time)
          (set_bottom_left (SetPathTimePoint id (start_s sl_boundary) relative_time)
             (set_obstacle_id id default_PathTimeObstacle))
    | Some r => r
    end in
  set_upper_right (SetPathTimePoint id (end_s sl_boundary) relative_time)
    (set_bottom_right (SetPathTimePoint id (start_s sl_boundary) relative_time) r).

(** The times at which the loop samples while it advances: [0], then each
    time the rounded sum of the one before and the time step, as the code
    accumulates them. *)
Fixpoint sample_time (i : nat) : Q :=
  match i with
  | O => 0
  | S j => dadd (sample_time j) trajectory_time_resolution
  end.

(** [obstacle] is outside the region at every time the loop samples from
    the [i]-th sample time on: at each sample time up to which the loop test
    has held. *)
Definition never_in_region_from (init_s : array3)
    (reference_line : ReferenceLine) (obstacle : Obstacle) (i : nat) : Prop :=
  ∀ j, (i <= j)%nat →
    (∀ k, (i <= k <= j)%nat →
       Qltb (sample_time k) planned_trajectory_time = true) →
    not_in_region init_s (sl_boundary_at reference_line obstacle (sample_time j))
    = true.

(** From the [i]-th on, some accumulated sample time is not below the
    look-ahead: the loop test fails there. *)
Definition look_ahead_reached_from (i : nat) : Prop :=
  ∃ n, (i <= n)%nat ∧ Qltb (sample_time n) planned_trajectory_time = false.

(** [o'] is [o] but for its perception data: the same identifier, as many
    trajectory points, and the same boundary at every time. *)
Definition same_but_perception (reference_line : ReferenceLine)
    (o o' : Obstacle) : Prop :=
  Id o' = Id o
  ∧ trajectory_point_size o' = trajectory_point_size o
  ∧ ∀ t, sl_boundary_at reference_line o' t = sl_boundary_at reference_line o t.

(** The build pass has nothing to sample of [obstacle]: its trajectory is
    empty, or it is outside the region at every sample time. *)
Definition never_relevant (init_s : array3) (reference_line : ReferenceLine)
    (obstacle : Obstacle) : Prop :=
  trajectory_point_size obstacle = 0%nat
  ∨ never_in_region_from init_s reference_line obstacle 0.

(** The map held when the sampling loop stops, finished or not. *)
Definition loop_map (x : outcome (Q * obstacle_map)) : obstacle_map :=
  match x with Finished (_, m) => m | OutOfFuel m => m end.

(** [r'] has the left corners of [r]. *)
Definition same_left_corners (r r' : PathTimeObstacle) : Prop :=
  bottom_left r' = bottom_left r ∧ upper_left r' = upper_left r.

(** The times and identifiers of a region stored under the key [id]. *)
Definition corners_consistent (id : string) (r : PathTimeObstacle) : Prop :=
  pt_t (bottom_left r) = pt_t (upper_left r)
  ∧ pt_t (bottom_right r) = pt_t (upper_right r)
  ∧ obstacle_id r = id
  ∧ pt_obstacle_id (bottom_left r) = id
  ∧ pt_obstacle_id (upper_left r) = id
  ∧ pt_obstacle_id (bottom_right r) = id
  ∧ pt_obstacle_id (upper_right r) = id.

End Neighborhood.


(** ** The scenario of the specification, as test data

    Ego at [s = 0]; horizon 50 m, look-ahead 5 s, time step 0.5 s, lateral
    threshold 2.5 m.  A trajectory point is its time, a box is the boundary
    it projects to, and the reference path is straight with heading 0. *)

Module Scenario.

Definition params : LatticeParams :=
  {| planned_trajectory_time := 5;
     planned_trajectory_horizon := 50;
     trajectory_time_resolution := 1 # 2;
     lateral_enter_lane_thred := 5 # 2 |}.

(** Every number of the scenario is a multiple of 1/2 of small size, so the
    sums and products of the scenario are exact in double precision: the
    rounded operations are the exact ones, in lowest terms. *)
Definition arith : DoubleArith :=
  {| dadd := λ a b, Qred (a + b);
     dmul := λ a b, Qred (a * b);
     dmul_comm := λ a b, Qred_complete _ _ (Qmult_comm a b) |}.

(** The only heading of the scenario is 0, where the cosine is 1 and the
    sine is 0. *)
Definition math : MathLib := {| cos := λ _, 1; sin := λ _, 0 |}.

Definition matcher : ReferenceLineMatcher :=
  {| MatchToReferenceLine := λ _ _, {| theta := 0 |} |}.

(** Another reference path, at a right angle to the first: the cosine is 0
    and the sine is 1 at its heading. *)
Definition math_turned : MathLib := {| cos := λ _, 0; sin := λ _, 1 |}.

Definition matcher_turned : ReferenceLineMatcher :=
  {| MatchToReferenceLine := λ _ _, {| theta := 1 |} |}.

Definition reference_line : @ReferenceLine SLBoundary :=
  {| GetSLBoundary := λ box, box |}.

Definition init_s : array3 := (0, 0, 0).

Definition moving (vx vy : Q) : PerceptionObstacle :=
  {| velocity := {| p_x := vx; p_y := vy; p_z := 0 |} |}.

Definition boundary (s0 s1 l0 l1 : Q) : SLBoundary :=
  {| start_s := s0; end_s := s1; start_l := l0; end_l := l1 |}.

(** Obstacle "A": in the region at [t = 0] and [t = 0.5], laterally clear of
    the lane from [t = 1]. *)
Definition obstacle_A : @Obstacle Q SLBoundary :=
  {| Id := "A";
     trajectory_point_size := 3;
     GetPointAtTime := λ t, t;
     GetBoundingBox := λ t,
       if Qltb t (1 # 2) then boundary 10 12 0 1
       else if Qltb t 1 then boundary 11 13 0 1
       else boundary 11 13 4 5;
     Perception := moving 2 0 |}.

(** "A" again, with another perception velocity. *)
Definition obstacle_A_fast : @Obstacle Q SLBoundary :=
  {| Id := "A";
     trajectory_point_size := 3;
     GetPointAtTime := GetPointAtTime obstacle_A;
     GetBoundingBox := GetBoundingBox obstacle_A;
     Perception := moving 7 0 |}.

(** Obstacle "B": beyond the longitudinal look-ahead at every time. *)
Definition obstacle_B : @Obstacle Q SLBoundary :=
  {| Id := "B";
     trajectory_point_size := 2;
     GetPointAtTime := λ t, t;
     GetBoundingBox := λ _, boundary 100 104 0 1;
     Perception := moving 1 0 |}.

(** Obstacle "E": no predicted trajectory point; its box would be in the
    region if it were sampled. *)
Definition obstacle_E : @Obstacle Q SLBoundary :=
  {| Id := "E";
     trajectory_point_size := 0;
     GetPointAtTime := λ t, t;
     GetBoundingBox := λ _, boundary 10 12 0 1;
     Perception := moving 1 0 |}.

Definition frame_of (l : list (@Obstacle Q SLBoundary)) : Frame :=
  {| obstacles := l |}.

(** A map that already holds a region, for an obstacle "P" seen at
    [t = 0] and [t = 0.5]. *)
Definition region_P : PathTimeObstacle :=
  {| obstacle_id := "P";
     bottom_left := {| pt_obstacle_id := "P"; pt_s := 20; pt_t := 0 |};
     upper_left := {| pt_obstacle_id := "P"; pt_s := 24; pt_t := 0 |};
     bottom_right := {| pt_obstacle_id := "P"; pt_s := 21; pt_t := 1 # 2 |};
     upper_right := {| pt_obstacle_id := "P"; pt_s := 25; pt_t := 1 # 2 |};
     path_lower := 0; path_upper := 0; time_lower := 0; time_upper := 0 |}.

Definition map_P : obstacle_map := {[ "P" := region_P ]}.

(** The map after the first sample of "A". *)
Definition region_A : PathTimeObstacle :=
  written "A" (boundary 10 12 0 1) 0 None.

Definition map_A : obstacle_map := {[ "A" := region_A ]}.

(** The scenario's own build, loop and body. *)
Definition build (fuel : nat) (l : list (@Obstacle Q SLBoundary)) : outcome Neighborhood :=
  PathTimeNeighborhood (params := params) (arith := arith) (math := math)
    (matcher := matcher)
    fuel (frame_of l) init_s reference_line [].

Definition setup (fuel : nat) (l : list (@Obstacle Q SLBoundary)) (m : obstacle_map)
  : outcome obstacle_map :=
  SetupObstacles (params := params) (arith := arith) (math := math)
    (matcher := matcher)
    fuel init_s (frame_of l) reference_line [] m.

Definition loop (fuel : nat) (o : @Obstacle Q SLBoundary) (t : Q) (m : obstacle_map)
  : outcome (Q * obstacle_map) :=
  sampling_loop (params := params) (arith := arith) (math := math)
    (matcher := matcher)
    fuel init_s reference_line [] o t m.

Definition body (o : @Obstacle Q SLBoundary) (t : Q) (m : obstacle_map)
  : control * Q * obstacle_map :=
  loop_body (params := params) (arith := arith) (math := math)
    (matcher := matcher)
    init_s reference_line [] o t m.

Definition speed (o : @Obstacle Q SLBoundary) (sl : SLBoundary) : Q :=
  SpeedOnReferenceLine (arith := arith) (math := math) (matcher := matcher) [] o sl.

End Scenario.

(** ** Facts about the comparisons *)

Lemma Qltb_lt (a b : Q) : Qltb a b = true ↔ a < b.
Proof.
  unfold Qltb. rewrite negb_true_iff. split.
  - intros Hb. apply Qnot_le_lt. intros Hle.
    apply Qle_bool_iff in Hle. congruence.
  - intros Hlt. destruct (Qle_bool b a) eqn:E; [|done].
    apply Qle_bool_iff in E. destruct (Qlt_not_le _ _ Hlt E).
Qed.

Lemma Qltb_ge (a b : Q) : Qltb a b = false ↔ b <= a.
Proof.
  unfold Qltb. rewrite negb_false_iff. apply Qle_bool_iff.
Qed.

Lemma std_min_le_l (a b : Q) : std_min a b <= a.
Proof.
  unfold std_min. destruct (Qltb b a) eqn:E.
  - apply Qlt_le_weak, Qltb_lt, E.
  - apply Qle_refl.
Qed.

Lemma std_max_ge_l (a b : Q) : a <= std_max a b.
Proof.
  unfold std_max. destruct (Qltb a b) eqn:E.
  - apply Qlt_le_weak, Qltb_lt, E.
  - apply Qle_refl.
Qed.

Lemma std_min_le_std_max (a b : Q) : std_min a b <= std_max a b.
Proof.
  apply Qle_trans with a; [apply std_min_le_l | apply std_max_ge_l].
Qed.

(** ** Facts about the writes into the map *)

Lemma map_mutate_insert (m : obstacle_map) id f :
  map_mutate m id f = <[id := f (default default_PathTimeObstacle (m !! id))]> m.
Proof.
  unfold map_mutate, map_index. destruct (m !! id) as [r|]; simpl; [done|].
  by rewrite insert_insert_eq.
Qed.

Lemma record_sample_insert id sl t (m : obstacle_map) :
  record_sample id sl t m = <[id := written id sl t (m !! id)]> m.
Proof.
  unfold record_sample, written.
  destruct (m !! id) as [r|] eqn:E;
    rewrite !map_mutate_insert, ?lookup_insert_eq, ?insert_insert_eq, ?E; done.
Qed.

Lemma record_sample_lookup id sl t (m : obstacle_map) :
  record_sample id sl t m !! id = Some (written id sl t (m !! id)).
Proof. by rewrite record_sample_insert, lookup_insert_eq. Qed.

Lemma record_sample_lookup_ne id id' sl t (m : obstacle_map) :
  id ≠ id' → record_sample id sl t m !! id' = m !! id'.
Proof. intros. by rewrite record_sample_insert, lookup_insert_ne. Qed.

(** Writing the same sample again changes nothing. *)
Lemma record_sample_again id sl t (m : obstacle_map) :
  record_sample id sl t (record_sample id sl t m) = record_sample id sl t m.
Proof.
  rewrite (record_sample_insert id sl t (record_sample _ _ _ _)).
  rewrite record_sample_lookup, record_sample_insert, insert_insert_eq.
  reflexivity.
Qed.

(** ** Facts about the sampling loop *)

Section Properties.

Context {TrajectoryPoint Box2d : Type}.
Context {params : LatticeParams} {arith : DoubleArith} {math : MathLib}
  {matcher : ReferenceLineMatcher}.

Implicit Types (obstacle o : @Obstacle TrajectoryPoint Box2d).
Implicit Types (l : list (@Obstacle TrajectoryPoint Box2d)).
Implicit Types (reference_line : @ReferenceLine Box2d).
Implicit Types (frame : @Frame TrajectoryPoint Box2d).
Implicit Types (init_s : array3) (pts : list PathPoint).
Implicit Types (m : obstacle_map) (t : Q) (fuel : nat).

Lemma loop_body_in_region init_s reference_line pts o t m :
  not_in_region init_s (sl_boundary_at reference_line o t) = false →
  loop_body init_s reference_line pts o t m
  = (Next, t, record_sample (Id o) (sl_boundary_at reference_line o t) t m).
Proof. unfold loop_body. by intros ->. Qed.

Lemma loop_body_not_in_region init_s reference_line pts o t m :
  not_in_region init_s (sl_boundary_at reference_line o t) = true →
  loop_body init_s reference_line pts o t m
  = match m !! Id o with
    | Some _ => (Break, t, m)
    | None => (Next, dadd t trajectory_time_resolution, m)
    end.
Proof. unfold loop_body. by intros ->. Qed.

(** A sample in the region is sampled again and again: the loop test and
    the sample are the same at every pass. *)
Lemma sampling_loop_stuck fuel init_s reference_line pts o t m :
  Qltb t planned_trajectory_time = true →
  not_in_region init_s (sl_boundary_at reference_line o t) = false →
  sampling_loop fuel init_s reference_line pts o t m
  = OutOfFuel
      match fuel with
      | O => m
      | S _ => record_sample (Id o) (sl_boundary_at reference_line o t) t m
      end.
Proof.
  intros Ht Hin. revert m. induction fuel as [|fuel IH]; intros m; simpl.
  - by rewrite Ht.
  - rewrite Ht, loop_body_in_region by done. rewrite IH.
    destruct fuel; [done|]. by rewrite record_sample_again.
Qed.

(** A run of the loop that finishes has not written to the map. *)
Lemma sampling_loop_finished fuel init_s reference_line pts o t m t' m' :
  sampling_loop fuel init_s reference_line pts o t m = Finished (t', m') →
  m' = m.
Proof.
  revert t. induction fuel as [|fuel IH]; intros t; simpl.
  - destruct (Qltb t planned_trajectory_time); congruence.
  - destruct (Qltb t planned_trajectory_time) eqn:Ht; [|congruence].
    destruct (not_in_region init_s (sl_boundary_at reference_line o t)) eqn:Hin.
    + rewrite loop_body_not_in_region by done.
      destruct (m !! Id o); [congruence|]. apply IH.
    + rewrite loop_body_in_region by done.
      rewrite sampling_loop_stuck by done. congruence.
Qed.

(** A finished run of the build pass has only computed the bounds. *)
Lemma process_obstacle_finished fuel init_s reference_line pts o m m' :
  process_obstacle fuel init_s reference_line pts o m = Finished m' → m' = m.
Proof.
  unfold process_obstacle.
  destruct (Nat.eqb (trajectory_point_size o) 0); [congruence|].
  destruct (sampling_loop _ _ _ _ _ _ _) as [[t' m'']|] eqn:E; [|done].
  apply sampling_loop_finished in E. congruence.
Qed.

Lemma for_obstacles_finished fuel init_s reference_line pts l m m' :
  for_obstacles fuel init_s reference_line pts l m = Finished m' → m' = m.
Proof.
  revert m. induction l as [|o l IH]; intros m; simpl; [congruence|].
  destruct (process_obstacle _ _ _ _ _ _) as [m1|] eqn:E; [|done].
  apply process_obstacle_finished in E as ->. apply IH.
Qed.

Lemma SetupObstacles_finished fuel init_s frame reference_line pts m m' :
  SetupObstacles fuel init_s frame reference_line pts m = Finished m' →
  m' = set_bounds <$> m.
Proof.
  unfold SetupObstacles.
  destruct (for_obstacles _ _ _ _ _ _) as [m1|] eqn:E; [|done].
  apply for_obstacles_finished in E as ->. congruence.
Qed.

Lemma PathTimeNeighborhood_finished fuel frame init_s reference_line pts this :
  PathTimeNeighborhood fuel frame init_s reference_line pts = Finished this →
  path_time_obstacle_map_ this = ∅.
Proof.
  unfold PathTimeNeighborhood.
  destruct (SetupObstacles _ _ _ _ _ _) as [m1|] eqn:E; [|done].
  apply SetupObstacles_finished in E as ->. intros [= <-]. simpl.
  apply fmap_empty.
Qed.

(** *** When the loop does end *)

Lemma never_in_region_from_here init_s reference_line o i :
  never_in_region_from init_s reference_line o i →
  Qltb (sample_time i) planned_trajectory_time = true →
  not_in_region init_s (sl_boundary_at reference_line o (sample_time i)) = true.
Proof.
  intros Hnever Ht. apply Hnever; [done|].
  intros k Hk. by replace k with i by lia.
Qed.

Lemma never_in_region_from_next init_s reference_line o i :
  never_in_region_from init_s reference_line o i →
  Qltb (sample_time i) planned_trajectory_time = true →
  never_in_region_from init_s reference_line o (S i).
Proof.
  intros Hnever Ht j Hj Htests. apply Hnever; [lia|].
  intros k Hk. destruct (decide (k = i)) as [->|Hne]; [done|].
  apply Htests. lia.
Qed.

(** Outside the region at every sampled time, the loop ends once the loop
    test fails, or before by [break], and leaves the map as it was. *)
Lemma sampling_loop_ends n i init_s reference_line pts o m :
  never_in_region_from init_s reference_line o i →
  Qltb (sample_time (i + n)) planned_trajectory_time = false →
  ∃ t', sampling_loop n init_s reference_line pts o (sample_time i) m
        = Finished (t', m).
Proof.
  revert i. induction n as [|n IH]; intros i Hnever Hfar; simpl.
  - rewrite Nat.add_0_r in Hfar. rewrite Hfar. eauto.
  - destruct (Qltb (sample_time i) planned_trajectory_time) eqn:Ht; [|eauto].
    rewrite loop_body_not_in_region
      by (by apply never_in_region_from_here).
    destruct (m !! Id o); [eauto|].
    apply (IH (S i)).
    + by apply never_in_region_from_next.
    + by rewrite Nat.add_succ_comm.
Qed.

Lemma process_obstacle_ends n init_s reference_line pts o m :
  never_relevant init_s reference_line o →
  Qltb (sample_time n) planned_trajectory_time = false →
  process_obstacle n init_s reference_line pts o m = Finished m.
Proof.
  intros Hnever Hfar. unfold process_obstacle.
  destruct (Nat.eqb (trajectory_point_size o) 0) eqn:Hsize; [done|].
  destruct Hnever as [Hempty|Hnever].
  { apply Nat.eqb_neq in Hsize. done. }
  destruct (sampling_loop_ends n 0 init_s reference_line pts o m Hnever Hfar)
    as [t' Hloop].
  simpl in Hloop. by rewrite Hloop.
Qed.

Lemma for_obstacles_ends n init_s reference_line pts l m :
  Forall (never_relevant init_s reference_line) l →
  Qltb (sample_time n) planned_trajectory_time = false →
  for_obstacles n init_s reference_line pts l m = Finished m.
Proof.
  intros Hall Hfar. induction Hall as [|o l Ho Hl IH]; simpl; [done|].
  by rewrite process_obstacle_ends.
Qed.

(** The build ends when nothing is ever in the region and the accumulated
    sample times reach the look-ahead, and its map is empty. *)
Lemma PathTimeNeighborhood_ends frame init_s reference_line pts :
  look_ahead_reached_from 0 →
  Forall (never_relevant init_s reference_line) (obstacles frame) →
  ∃ fuel,
    PathTimeNeighborhood fuel frame init_s reference_line pts
    = Finished {| init_s_ := init_s; path_time_obstacle_map_ := ∅ |}.
Proof.
  intros (n & _ & Hn) Hall.
  exists n. unfold PathTimeNeighborhood, SetupObstacles.
  rewrite for_obstacles_ends by done. by rewrite fmap_empty.
Qed.

(** *** What every run keeps, finished or not *)

(** A property of the map that the writes of a sample keep is kept by the
    loop, whatever the fuel. *)
Lemma sampling_loop_keeps (P : obstacle_map → Prop) fuel init_s reference_line
    pts o t m :
  (∀ sl t' m', P m' → P (record_sample (Id o) sl t' m')) →
  P m → P (loop_map (sampling_loop fuel init_s reference_line pts o t m)).
Proof.
  intros Hstep. revert t m.
  induction fuel as [|fuel IH]; intros t m Hm; simpl.
  - by destruct (Qltb t planned_trajectory_time).
  - destruct (Qltb t planned_trajectory_time); [|done].
    unfold loop_body.
    destruct (not_in_region init_s (sl_boundary_at reference_line o t)).
    + destruct (m !! Id o); [done|]. by apply IH.
    + apply IH. by apply Hstep.
Qed.

Lemma for_obstacles_keeps (P : obstacle_map → Prop) fuel init_s reference_line
    pts l m :
  (∀ id sl t' m', P m' → P (record_sample id sl t' m')) →
  P m → P (reached_map (for_obstacles fuel init_s reference_line pts l m)).
Proof.
  intros Hstep. revert m. induction l as [|o l IH]; intros m Hm; simpl; [done|].
  unfold process_obstacle.
  destruct (Nat.eqb (trajectory_point_size o) 0); [by apply IH|].
  pose proof (sampling_loop_keeps P fuel init_s reference_line pts o 0 m
                (Hstep (Id o)) Hm) as Hloop.
  destruct (sampling_loop _ _ _ _ _ _ _) as [[t' m']|m']; simpl in *.
  - by apply IH.
  - done.
Qed.

Lemma SetupObstacles_keeps (P : obstacle_map → Prop) fuel init_s frame
    reference_line pts m :
  (∀ id sl t' m', P m' → P (record_sample id sl t' m')) →
  (∀ m', P m' → P (set_bounds <$> m')) →
  P m →
  P (reached_map (SetupObstacles fuel init_s frame reference_line pts m)).
Proof.
  intros Hstep Hbounds Hm. unfold SetupObstacles.
  pose proof (for_obstacles_keeps P fuel init_s reference_line pts
                (obstacles frame) m Hstep Hm) as Hfor.
  destruct (for_obstacles _ _ _ _ _ _); simpl in *; [by apply Hbounds|done].
Qed.

(** Outside the region at every remaining sample time, no run of the loop
    writes, whatever the fuel. *)
Lemma sampling_loop_never_writes fuel i init_s reference_line pts o m :
  never_in_region_from init_s reference_line o i →
  loop_map (sampling_loop fuel init_s reference_line pts o (sample_time i) m) = m.
Proof.
  revert i. induction fuel as [|fuel IH]; intros i Hnever; simpl.
  - by destruct (Qltb _ _).
  - destruct (Qltb (sample_time i) planned_trajectory_time) eqn:Ht; [|done].
    rewrite loop_body_not_in_region
      by (by apply never_in_region_from_here).
    destruct (m !! Id o); [done|].
    apply (IH (S i)). by apply never_in_region_from_next.
Qed.

(** From the empty map, the loop over the obstacles holds either the empty
    map or the one region written from one sample of one obstacle. *)
Lemma sampling_loop_from_empty fuel init_s reference_line pts o t :
  let m := loop_map (sampling_loop fuel init_s reference_line pts o t ∅) in
  m = ∅ ∨ ∃ t', m = {[ Id o := written (Id o)
                                   (sl_boundary_at reference_line o t') t' None ]}.
Proof.
  revert t. induction fuel as [|fuel IH]; intros t; simpl.
  - destruct (Qltb _ _); by left.
  - destruct (Qltb t planned_trajectory_time) eqn:Ht; [|by left].
    destruct (not_in_region init_s (sl_boundary_at reference_line o t)) eqn:Hin.
    + rewrite loop_body_not_in_region, lookup_empty by done. apply IH.
    + rewrite loop_body_in_region by done.
      rewrite sampling_loop_stuck by done. simpl. right. exists t.
      destruct fuel; by rewrite ?record_sample_again, record_sample_insert,
        lookup_empty.
Qed.

Lemma for_obstacles_from_empty fuel init_s reference_line pts l :
  let m := reached_map (for_obstacles fuel init_s reference_line pts l ∅) in
  m = ∅ ∨ ∃ o t', o ∈ l ∧
    m = {[ Id o := written (Id o) (sl_boundary_at reference_line o t') t' None ]}.
Proof.
  induction l as [|o l IH]; simpl; [by left|].
  unfold process_obstacle.
  destruct (Nat.eqb (trajectory_point_size o) 0).
  { destruct IH as [IH|(o' & t' & Ho' & IH)]; [by left|].
    right. exists o', t'. split; [by right|done]. }
  pose proof (sampling_loop_from_empty fuel init_s reference_line pts o 0)
    as Hloop.
  destruct (sampling_loop _ _ _ _ _ _ _) as [[t1 m1]|m1] eqn:E; simpl in *.
  - apply sampling_loop_finished in E as ->.
    destruct IH as [IH|(o' & t' & Ho' & IH)]; [by left|].
    right. exists o', t'. split; [by right|done].
  - destruct Hloop as [Hloop|[t' Hloop]]; [by left|].
    right. exists o, t'. split; [by left|done].
Qed.

(** *** The regions the writes leave *)

Lemma written_left_kept id sl t r :
  same_left_corners r (written id sl t (Some r)).
Proof. done. Qed.

(** The first write for an obstacle stamps all four corners with the sample:
    the left corners and the right corners carry its time and its interval. *)
Lemma written_first id sl t :
  let r := written id sl t None in
  bottom_left r = SetPathTimePoint id (start_s sl) t
  ∧ upper_left r = SetPathTimePoint id (end_s sl) t
  ∧ bottom_right r = SetPathTimePoint id (start_s sl) t
  ∧ upper_right r = SetPathTimePoint id (end_s sl) t.
Proof. done. Qed.

(** A later write moves the right corners to the sample. *)
Lemma written_later id sl t r :
  let r' := written id sl t (Some r) in
  bottom_right r' = SetPathTimePoint id (start_s sl) t
  ∧ upper_right r' = SetPathTimePoint id (end_s sl) t.
Proof. done. Qed.

Lemma written_consistent id sl t before :
  (∀ r, before = Some r → corners_consistent id r) →
  corners_consistent id (written id sl t before).
Proof.
  intros Hbefore. destruct before as [r|]; [|by repeat split].
  destruct (Hbefore r eq_refl) as (? & ? & ? & ? & ? & ? & ?).
  by repeat split.
Qed.

Lemma set_bounds_consistent id r :
  corners_consistent id (set_bounds r) ↔ corners_consistent id r.
Proof. done. Qed.

(** ** The claims *)

(** The bounds and the builds of the constructor.  A build that has
    completed holds no region.  A build still running holds no region for
    which the computation of the bounds (lines 113-133) would give
    [path_lower > path_upper] or [time_lower > time_upper]: every region it
    holds was written from one sample. *)
Lemma held_regions_would_get_ordered_bounds fuel frame init_s reference_line
    pts :
  match PathTimeNeighborhood fuel frame init_s reference_line pts with
  | Finished this =>
      map_Forall (λ _ r, path_lower r <= path_upper r
                         ∧ time_lower r <= time_upper r)
        (path_time_obstacle_map_ this)
  | OutOfFuel m =>
      map_Forall (λ _ r, path_lower (set_bounds r) <= path_upper (set_bounds r)
                         ∧ time_lower (set_bounds r)
                           <= time_upper (set_bounds r)) m
  end.
Proof.
  destruct (PathTimeNeighborhood _ _ _ _ _) as [this|m] eqn:Hrun.
  { apply PathTimeNeighborhood_finished in Hrun as ->. apply map_Forall_empty. }
  unfold PathTimeNeighborhood, SetupObstacles in Hrun.
  pose proof (for_obstacles_from_empty fuel init_s reference_line pts
                (obstacles frame)) as Hheld.
  destruct (for_obstacles _ _ _ _ _ _) as [m1|m1]; [done|].
  injection Hrun as <-. simpl in Hheld.
  destruct Hheld as [->|(o & t' & _ & ->)].
  - apply map_Forall_empty.
  - apply map_Forall_singleton. split; apply std_min_le_std_max.
Qed.

(** The computation of the bounds does not order them by itself: for a region
    whose right corners were written from a later sample nearer to the
    origin of the path than the first one, it gives a [path_lower] above
    [path_upper]. *)
Lemma nearer_later_sample_crosses_path_bounds :
  let first := {| start_s := 10; end_s := 12; start_l := 0; end_l := 1 |} in
  let later := {| start_s := 1; end_s := 2; start_l := 0; end_l := 1 |} in
  let r :=
    set_bounds (written "A" later (1 # 2) (Some (written "A" first 0 None)))
  in
  path_upper r < path_lower r ∧ time_lower r < time_upper r.
Proof. by vm_compute. Qed.

(** Claim C4.  An obstacle with an empty predicted trajectory, or outside the
    region at every sample time, has no entry in the map of a finished build
    and no region in the list [GetPathTimeObstacles] returns. *)
Theorem never_relevant_absent fuel frame init_s reference_line pts o this :
  o ∈ obstacles frame →
  never_relevant init_s reference_line o →
  PathTimeNeighborhood fuel frame init_s reference_line pts = Finished this →
  path_time_obstacle_map_ this !! Id o = None
  ∧ Forall (λ r, obstacle_id r ≠ Id o) (GetPathTimeObstacles this).
Proof.
  intros _ _ Hrun. apply PathTimeNeighborhood_finished in Hrun.
  unfold GetPathTimeObstacles. rewrite Hrun, map_to_list_empty.
  split; [apply lookup_empty|constructor].
Qed.

(** While the pass runs, too: if no obstacle carrying the identifier is ever
    relevant, no map the pass reaches has an entry under it. *)
Lemma never_relevant_never_entered fuel init_s frame reference_line pts id m :
  (∀ o, o ∈ obstacles frame → Id o = id →
        never_relevant init_s reference_line o) →
  m !! id = None →
  reached_map (SetupObstacles fuel init_s frame reference_line pts m) !! id
  = None.
Proof.
  intros Hsame Hm. unfold SetupObstacles.
  assert (reached_map (for_obstacles fuel init_s reference_line pts
                         (obstacles frame) m) !! id = None) as Hfor.
  { revert m Hm Hsame. generalize (obstacles frame).
    induction l as [|o l IH]; intros m Hm Hsame; simpl; [done|].
    assert (∀ o', o' ∈ l → Id o' = id →
                  never_relevant init_s reference_line o') as Hrest.
    { intros o' Ho'. apply Hsame. by right. }
    unfold process_obstacle.
    destruct (Nat.eqb (trajectory_point_size o) 0) eqn:Hsize; [by apply IH|].
    assert (loop_map (sampling_loop fuel init_s reference_line pts o 0 m) !! id
            = None) as Hloop.
    { destruct (decide (Id o = id)) as [Heq|Hne].
      - destruct (Hsame o (list_elem_of_here _ _) Heq) as [Hempty|Hnever].
        + apply Nat.eqb_neq in Hsize. done.
        + by rewrite (sampling_loop_never_writes fuel 0).
      - apply (sampling_loop_keeps (λ m', m' !! id = None)); [|done].
        intros sl t' m' Hm'. by rewrite record_sample_lookup_ne. }
    destruct (sampling_loop _ _ _ _ _ _ _) as [[t1 m1]|m1]; simpl in *.
    - by apply IH.
    - done. }
  destruct (for_obstacles _ _ _ _ _ _); simpl in *; [|done].
  by rewrite lookup_fmap, Hfor.
Qed.

(** The writes of any sample keep the left corners of an entry. *)
Lemma record_sample_left_kept id r id0 sl t m :
  (∃ r', m !! id = Some r' ∧ same_left_corners r r') →
  ∃ r', record_sample id0 sl t m !! id = Some r' ∧ same_left_corners r r'.
Proof.
  intros (r' & Hr' & Hleft). destruct (decide (id0 = id)) as [->|Hne].
  - rewrite record_sample_lookup, Hr'. eexists. split; [done|].
    destruct Hleft as [Hb Hu]. split; simpl; done.
  - rewrite record_sample_lookup_ne by done. eauto.
Qed.

(** Claim C5.  Once an obstacle has an entry, its [bottom_left] and
    [upper_left] corners stay as they are: through the rest of the sampling
    loop of any obstacle, whatever the samples and however long the loop
    runs, and through the rest of the build pass, the computation of the
    bounds included. *)
Theorem left_corners_never_overwritten fuel init_s frame reference_line pts
    o t m id r :
  m !! id = Some r →
  (∃ r', loop_map (sampling_loop fuel init_s reference_line pts o t m) !! id
         = Some r' ∧ same_left_corners r r')
  ∧ (∃ r', reached_map (SetupObstacles fuel init_s frame reference_line pts m)
           !! id = Some r' ∧ same_left_corners r r').
Proof.
  intros Hr.
  assert (∃ r', m !! id = Some r' ∧ same_left_corners r r') as Hm.
  { exists r. by repeat split. }
  split.
  - apply (sampling_loop_keeps
             (λ m', ∃ r', m' !! id = Some r' ∧ same_left_corners r r'));
      [|done].
    intros sl t' m'. apply record_sample_left_kept.
  - apply (SetupObstacles_keeps
             (λ m', ∃ r', m' !! id = Some r' ∧ same_left_corners r r'));
      [| |done].
    + intros id0 sl t' m'. apply record_sample_left_kept.
    + intros m' (r' & Hr' & Hleft). exists (set_bounds r').
      by rewrite lookup_fmap, Hr'.
Qed.

(** Claim C6.  A sample is outside the region exactly when [end_s < 0], or
    [start_s > init_s_[0] + planned_trajectory_horizon] with the sum as the
    code rounds it, or both [|start_l|] and [|end_l|] exceed
    [lateral_enter_lane_thred]; the body of the loop
    writes the sample into the map in the other case, and only then. *)
Theorem relevance_filter init_s reference_line pts o t m :
  let sl := sl_boundary_at reference_line o t in
  (not_in_region init_s sl = true ↔
     end_s sl < 0
     ∨ dadd (at0 init_s) planned_trajectory_horizon < start_s sl
     ∨ (lateral_enter_lane_thred < Qabs (start_l sl)
        ∧ lateral_enter_lane_thred < Qabs (end_l sl)))
  ∧ (not_in_region init_s sl = true →
       (loop_body init_s reference_line pts o t m).2 = m)
  ∧ (not_in_region init_s sl = false →
       loop_body init_s reference_line pts o t m
       = (Next, t, record_sample (Id o) sl t m)).
Proof.
  intros sl. split; [|split].
  - unfold not_in_region.
    rewrite !orb_true_iff, andb_true_iff, !Qltb_lt. tauto.
  - intros Hout. rewrite loop_body_not_in_region by done.
    by destruct (m !! Id o).
  - apply loop_body_in_region.
Qed.

(** Claim C7.  [GetPathTimeObstacle(id)] returns [true] and the region stored
    under [id], which is one of the regions [GetPathTimeObstacles] returns,
    when [id] is a key of the map; it returns [false] and leaves the out
    parameter alone when [id] is no key; the object is the same afterwards in
    both cases. *)
Theorem GetPathTimeObstacle_found_or_not (this : Neighborhood) id out :
  match path_time_obstacle_map_ this !! id with
  | Some r =>
      GetPathTimeObstacle this id out = (true, r, this)
      ∧ r ∈ GetPathTimeObstacles this
  | None => GetPathTimeObstacle this id out = (false, out, this)
  end.
Proof.
  destruct this as [a m]. unfold GetPathTimeObstacle, map_index. simpl.
  destruct (m !! id) as [r|] eqn:E; [|done]. split; [done|].
  unfold GetPathTimeObstacles. simpl.
  apply list_elem_of_fmap. exists (id, r). split; [done|].
  by apply elem_of_map_to_list.
Qed.

(** Claim C8.  An obstacle without predicted trajectory points is passed
    over: its turn finishes at once with the map unchanged, whatever the
    fuel, and the pass over a frame with it is the pass over the frame
    without it. *)
Theorem empty_trajectory_skipped fuel init_s reference_line pts o l1 l2 m :
  trajectory_point_size o = 0%nat →
  process_obstacle fuel init_s reference_line pts o m = Finished m
  ∧ SetupObstacles fuel init_s {| obstacles := l1 ++ o :: l2 |}
      reference_line pts m
    = SetupObstacles fuel init_s {| obstacles := l1 ++ l2 |}
        reference_line pts m.
Proof.
  intros Hempty.
  assert (∀ m', process_obstacle fuel init_s reference_line pts o m'
                = Finished m') as Hskip.
  { intros m'. unfold process_obstacle. by rewrite Hempty. }
  split; [apply Hskip|].
  unfold SetupObstacles. simpl. f_equal.
  revert m. induction l1 as [|o1 l1 IH]; intros m; simpl.
  - by rewrite Hskip.
  - destruct (process_obstacle _ _ _ _ o1 m); [apply IH|done].
Qed.

(** *** The speed and the build *)

Lemma loop_body_ignores_speed (math' : MathLib)
    (matcher' : ReferenceLineMatcher) init_s reference_line pts pts' o o' t m :
  same_but_perception reference_line o o' →
  loop_body (math := math') (matcher := matcher') init_s reference_line pts'
    o' t m
  = loop_body (math := math) (matcher := matcher) init_s reference_line pts
      o t m.
Proof.
  intros (Hid & _ & Hsl). unfold loop_body. by rewrite Hid, Hsl.
Qed.

Lemma sampling_loop_ignores_speed (math' : MathLib)
    (matcher' : ReferenceLineMatcher) fuel init_s reference_line pts pts'
    o o' t m :
  same_but_perception reference_line o o' →
  sampling_loop (math := math') (matcher := matcher') fuel init_s
    reference_line pts' o' t m
  = sampling_loop (math := math) (matcher := matcher) fuel init_s
      reference_line pts o t m.
Proof.
  intros Hsame. revert t m. induction fuel as [|fuel IH]; intros t m; simpl.
  - done.
  - rewrite (loop_body_ignores_speed math' matcher' _ _ pts pts' o o')
      by done.
    destruct (Qltb t planned_trajectory_time); [|done].
    destruct (loop_body _ _ pts o t m) as [[[|] t'] m']; [done|apply IH].
Qed.

Lemma for_obstacles_ignores_speed (math' : MathLib)
    (matcher' : ReferenceLineMatcher) fuel init_s reference_line pts pts'
    l l' m :
  Forall2 (same_but_perception reference_line) l l' →
  for_obstacles (math := math') (matcher := matcher') fuel init_s
    reference_line pts' l' m
  = for_obstacles (math := math) (matcher := matcher) fuel init_s
      reference_line pts l m.
Proof.
  intros Hsame. revert m.
  induction Hsame as [|o o' l l' Ho Hl IH]; intros m; simpl; [done|].
  unfold process_obstacle.
  rewrite (sampling_loop_ignores_speed math' matcher' _ _ _ pts pts' o o')
    by done.
  destruct Ho as (_ & -> & _).
  destruct (Nat.eqb (trajectory_point_size o) 0); [apply IH|].
  destruct (sampling_loop _ _ _ pts o _ _) as [[t' m']|m']; [apply IH|done].
Qed.

(** The outcome of the constructor is the same for obstacles that differ
    only in their perception data, for any cosine, sine and matcher, and for
    any reference points. *)
Lemma PathTimeNeighborhood_ignores_speed (math' : MathLib)
    (matcher' : ReferenceLineMatcher) fuel frame frame' init_s reference_line
    pts pts' :
  Forall2 (same_but_perception reference_line)
    (obstacles frame) (obstacles frame') →
  PathTimeNeighborhood (math := math') (matcher := matcher') fuel frame'
    init_s reference_line pts'
  = PathTimeNeighborhood (math := math) (matcher := matcher) fuel frame
      init_s reference_line pts.
Proof.
  intros Hsame. unfold PathTimeNeighborhood, SetupObstacles.
  by rewrite (for_obstacles_ignores_speed math' matcher' _ _ _ pts pts'
                (obstacles frame) (obstacles frame')).
Qed.

(** Claim C9, as the code has it.  The speed along the reference line is
    [v_x cos θ + v_y sin θ], with [θ] the heading of the point matched to
    [start_s] and the products and the sum rounded as the code rounds them;
    the build does not depend on it: with obstacles that differ only in
    their perception data, with any other cosine, sine and matcher and any
    other reference points, the constructor gives the same outcome, the same
    object when it returns and the same map when it is still running. *)
Theorem speed_projected_and_unused (math' : MathLib)
    (matcher' : ReferenceLineMatcher) fuel frame frame' init_s reference_line
    pts pts' :
  Forall2 (same_but_perception reference_line)
    (obstacles frame) (obstacles frame') →
  (∀ o sl,
     let θ :=
       theta (MatchToReferenceLine (ReferenceLineMatcher := matcher)
                pts (start_s sl)) in
     SpeedOnReferenceLine (math := math) (matcher := matcher) pts o sl
     = dadd (dmul (p_x (velocity (Perception o))) (cos (MathLib := math) θ))
            (dmul (p_y (velocity (Perception o))) (sin (MathLib := math) θ)))
  ∧ PathTimeNeighborhood (math := math') (matcher := matcher') fuel frame'
      init_s reference_line pts'
    = PathTimeNeighborhood (math := math) (matcher := matcher) fuel frame
        init_s reference_line pts.
Proof.
  intros Hsame. split.
  - intros o sl θ. unfold SpeedOnReferenceLine. fold θ.
    by rewrite (dmul_comm (cos θ)), (dmul_comm (sin θ)).
  - by apply PathTimeNeighborhood_ignores_speed.
Qed.

(** In every map the build pass reaches, and so in the map it leaves when
    it completes, each region has one time on its two left corners and one
    time on its two right corners, and its identifier and the identifiers of
    its four corners are the key it is stored under. *)
Lemma corners_stay_consistent fuel init_s frame reference_line pts m0 :
  map_Forall corners_consistent m0 →
  map_Forall corners_consistent
    (reached_map (SetupObstacles fuel init_s frame reference_line pts m0)).
Proof.
  apply (SetupObstacles_keeps (map_Forall corners_consistent)).
  - intros id sl t m Hm. rewrite record_sample_insert.
    apply map_Forall_insert_2; [|done].
    apply written_consistent. intros r Hr. by apply (Hm id r).
  - intros m Hm. apply map_Forall_fmap.
    eapply map_Forall_impl; [exact Hm|]. intros id r Hr.
    by apply set_bounds_consistent.
Qed.

End Properties.

(** ** The scenario, run *)

(** Claim C1, on the code.  The sampling loop of obstacle "A", whose sample
    at time 0 is in the region, does not end: with any fuel it is still
    running when the fuel is used up. *)
Theorem obstacle_A_loop_never_ends (fuel : nat) :
  finished (Scenario.loop fuel Scenario.obstacle_A 0 ∅) = false.
Proof.
  unfold Scenario.loop. by rewrite sampling_loop_stuck.
Qed.

(** Claim C3, on the code.  Obstacle "A" is in the region at the sample times
    [0] and [0.5] and outside it at the next one, yet the build never
    computes its bounds: with any fuel the pass is still in the loop of "A",
    and the right corners it holds carry the time [0], not [0.5]. *)
Theorem obstacle_A_region_never_closed :
  let sl i :=
    sl_boundary_at Scenario.reference_line Scenario.obstacle_A
      (sample_time (params := Scenario.params) (arith := Scenario.arith) i) in
  let out i :=
    not_in_region (params := Scenario.params) (arith := Scenario.arith) Scenario.init_s (sl i) in
  (out 0%nat = false ∧ out 1%nat = false ∧ out 2%nat = true)
  ∧ ∀ fuel, ∃ m,
      Scenario.build fuel [Scenario.obstacle_A] = OutOfFuel m
      ∧ ∀ r, m !! "A" = Some r →
          pt_t (bottom_right r) = 0 ∧ pt_t (upper_right r) = 0
          ∧ time_upper r = 0
          ∧ ¬ time_upper r == sample_time (params := Scenario.params) (arith := Scenario.arith) 1.
Proof.
  split; [by vm_compute|]. intros fuel.
  unfold Scenario.build, PathTimeNeighborhood, SetupObstacles. simpl.
  unfold process_obstacle. simpl. rewrite sampling_loop_stuck by done.
  eexists. split; [done|]. intros r.
  destruct fuel; [by rewrite lookup_empty|].
  rewrite record_sample_lookup, lookup_empty. intros [= <-]. by vm_compute.
Qed.


(** Claim C9, as stated, fails: the speed is not kept.  The builds of
    obstacle "A" and of its faster twin have the same outcome with any fuel,
    and their speeds along the reference line differ; nothing read off the
    outcome of the build gives the speed of both. *)
Lemma speed_not_kept :
  ¬ ∃ recover : outcome Neighborhood → Q,
      ∀ fuel o, o ∈ [Scenario.obstacle_A; Scenario.obstacle_A_fast] →
        recover (Scenario.build fuel [o])
        == Scenario.speed o (sl_boundary_at Scenario.reference_line o 0).
Proof.
  intros [recover Hrecover].
  pose proof (Hrecover 3%nat Scenario.obstacle_A (list_elem_of_here _ _))
    as Hslow.
  pose proof (Hrecover 3%nat Scenario.obstacle_A_fast
                (list_elem_of_further _ _ _ (list_elem_of_here _ _))) as Hfast.
  change (Scenario.build 3 [Scenario.obstacle_A_fast])
    with (Scenario.build 3 [Scenario.obstacle_A]) in Hfast.
  rewrite Hslow in Hfast. by vm_compute in Hfast.
Qed.

(** ** The theorems at work on the scenario *)

Lemma never_relevant_absent_witness :
  Scenario.obstacle_B ∈ [Scenario.obstacle_B; Scenario.obstacle_E]
  ∧ never_relevant (params := Scenario.params) (arith := Scenario.arith) Scenario.init_s
      Scenario.reference_line Scenario.obstacle_B
  ∧ Scenario.build 10 [Scenario.obstacle_B; Scenario.obstacle_E]
    = Finished {| init_s_ := Scenario.init_s; path_time_obstacle_map_ := ∅ |}
  ∧ (∅ : obstacle_map) !! "B" = None
  ∧ Forall (λ r, obstacle_id r ≠ "B")
      (GetPathTimeObstacles
         {| init_s_ := Scenario.init_s; path_time_obstacle_map_ := ∅ |}).
Proof.
  assert (Scenario.obstacle_B ∈ [Scenario.obstacle_B; Scenario.obstacle_E])
    as Hin by apply list_elem_of_here.
  assert (never_relevant (params := Scenario.params) (arith := Scenario.arith) Scenario.init_s
            Scenario.reference_line Scenario.obstacle_B) as Hnever.
  { right. intros j _ _. reflexivity. }
  assert (Scenario.build 10 [Scenario.obstacle_B; Scenario.obstacle_E]
          = Finished {| init_s_ := Scenario.init_s;
                        path_time_obstacle_map_ := ∅ |}) as Hrun.
  { by vm_compute. }
  split; [exact Hin|]. split; [exact Hnever|]. split; [exact Hrun|].
  exact (never_relevant_absent (params := Scenario.params)
           (arith := Scenario.arith) (math := Scenario.math)
           (matcher := Scenario.matcher)
           10 (Scenario.frame_of [Scenario.obstacle_B; Scenario.obstacle_E])
           Scenario.init_s Scenario.reference_line [] Scenario.obstacle_B _
           Hin Hnever Hrun).
Defined.

Lemma left_corners_never_overwritten_witness :
  Scenario.map_A !! "A" = Some Scenario.region_A
  ∧ (∃ r', loop_map (Scenario.loop 3 Scenario.obstacle_A (1 # 2) Scenario.map_A)
           !! "A" = Some r'
           ∧ same_left_corners Scenario.region_A r')
  ∧ (∃ r', reached_map (Scenario.setup 3 [Scenario.obstacle_A] Scenario.map_A)
           !! "A" = Some r'
           ∧ same_left_corners Scenario.region_A r').
Proof.
  assert (Scenario.map_A !! "A" = Some Scenario.region_A) as Hentry.
  { by vm_compute. }
  split; [exact Hentry|].
  exact (left_corners_never_overwritten (params := Scenario.params)
           (arith := Scenario.arith) (math := Scenario.math)
           (matcher := Scenario.matcher)
           3 Scenario.init_s (Scenario.frame_of [Scenario.obstacle_A])
           Scenario.reference_line [] Scenario.obstacle_A (1 # 2)
           Scenario.map_A "A" Scenario.region_A Hentry).
Defined.

Lemma empty_trajectory_skipped_witness :
  trajectory_point_size Scenario.obstacle_E = 0%nat
  ∧ process_obstacle (params := Scenario.params) (arith := Scenario.arith) (math := Scenario.math)
      (matcher := Scenario.matcher) 0 Scenario.init_s Scenario.reference_line
      [] Scenario.obstacle_E Scenario.map_P
    = Finished Scenario.map_P
  ∧ Scenario.setup 0
      ([Scenario.obstacle_B] ++ Scenario.obstacle_E :: [Scenario.obstacle_A])
      Scenario.map_P
    = Scenario.setup 0 ([Scenario.obstacle_B] ++ [Scenario.obstacle_A])
        Scenario.map_P.
Proof.
  split; [reflexivity|].
  exact (empty_trajectory_skipped (params := Scenario.params)
           (arith := Scenario.arith) (math := Scenario.math)
           (matcher := Scenario.matcher)
           0 Scenario.init_s Scenario.reference_line [] Scenario.obstacle_E
           [Scenario.obstacle_B] [Scenario.obstacle_A] Scenario.map_P
           eq_refl).
Defined.

Lemma speed_projected_and_unused_witness :
  Forall2 (same_but_perception Scenario.reference_line)
    [Scenario.obstacle_B; Scenario.obstacle_A]
    [Scenario.obstacle_B; Scenario.obstacle_A_fast]
  ∧ (∀ o sl,
       Scenario.speed o sl
       = dadd (DoubleArith := Scenario.arith)
           (dmul (DoubleArith := Scenario.arith)
              (p_x (velocity (Perception o))) 1)
           (dmul (DoubleArith := Scenario.arith)
              (p_y (velocity (Perception o))) 0))
  ∧ PathTimeNeighborhood (params := Scenario.params) (arith := Scenario.arith)
      (math := Scenario.math_turned) (matcher := Scenario.matcher_turned)
      4 (Scenario.frame_of [Scenario.obstacle_B; Scenario.obstacle_A_fast])
      Scenario.init_s Scenario.reference_line [{| theta := 1 |}]
    = Scenario.build 4 [Scenario.obstacle_B; Scenario.obstacle_A].
Proof.
  assert (Forall2 (same_but_perception Scenario.reference_line)
            [Scenario.obstacle_B; Scenario.obstacle_A]
            [Scenario.obstacle_B; Scenario.obstacle_A_fast]) as Hsame.
  { repeat constructor. }
  split; [exact Hsame|].
  exact (speed_projected_and_unused (params := Scenario.params)
           (arith := Scenario.arith) (math := Scenario.math)
           (matcher := Scenario.matcher)
           Scenario.math_turned Scenario.matcher_turned 4
           (Scenario.frame_of [Scenario.obstacle_B; Scenario.obstacle_A])
           (Scenario.frame_of [Scenario.obstacle_B; Scenario.obstacle_A_fast])
           Scenario.init_s Scenario.reference_line [] [{| theta := 1 |}]
           Hsame).
Defined.

(** ** More about the build pass and the queries *)

Section MoreProperties.

Context {TrajectoryPoint Box2d : Type}.
Context {params : LatticeParams} {arith : DoubleArith} {math : MathLib}
  {matcher : ReferenceLineMatcher}.

Implicit Types (obstacle o : @Obstacle TrajectoryPoint Box2d).
Implicit Types (l : list (@Obstacle TrajectoryPoint Box2d)).
Implicit Types (reference_line : @ReferenceLine Box2d).
Implicit Types (frame : @Frame TrajectoryPoint Box2d).
Implicit Types (init_s : array3) (pts : list PathPoint).
Implicit Types (m : obstacle_map) (t : Q) (fuel : nat).

(** *** When the loop and the build return *)

(** Without an entry, a loop that ends has met no sample in the region and
    has seen the loop test fail. *)
Lemma sampling_loop_finished_never fuel i init_s reference_line pts o m :
  m !! Id o = None →
  finished (sampling_loop fuel init_s reference_line pts o (sample_time i) m)
  = true →
  never_in_region_from init_s reference_line o i ∧ look_ahead_reached_from i.
Proof.
  intros Hnone. revert i.
  assert (∀ i, Qltb (sample_time i) planned_trajectory_time = false →
            never_in_region_from init_s reference_line o i
            ∧ look_ahead_reached_from i) as Hstop.
  { intros i Ht. split; [|by exists i].
    intros j Hij Htests. rewrite Htests in Ht; [done|lia]. }
  induction fuel as [|fuel IH]; intros i; simpl.
  - destruct (Qltb (sample_time i) planned_trajectory_time) eqn:Ht; [done|].
    intros _. by apply Hstop.
  - destruct (Qltb (sample_time i) planned_trajectory_time) eqn:Ht.
    2:{ intros _. by apply Hstop. }
    destruct (not_in_region init_s
                (sl_boundary_at reference_line o (sample_time i))) eqn:Hin.
    + rewrite loop_body_not_in_region, Hnone by done. intros Hfin.
      destruct (IH (S i) Hfin) as [Hnext (n & Hn & Hfar)].
      split; [|exists n; split; [lia|done]].
      intros j Hij Htests. destruct (decide (j = i)) as [->|Hne]; [done|].
      apply Hnext; [lia|]. intros k Hk. apply Htests. lia.
    + rewrite loop_body_in_region by done.
      by rewrite sampling_loop_stuck.
Qed.

(** The sampling loop of an obstacle ends exactly in two cases: the obstacle
    has no entry, it is outside the region at every time the loop samples,
    and the accumulated sample times reach the look-ahead; or it has an
    entry and the sample at hand, if the loop test holds, is outside the
    region (the early exit).  In every other case no fuel is enough.  The
    sample times are the doubles the code accumulates, whatever the
    rounding of the sum. *)
Theorem sampling_loop_ends_iff i init_s reference_line pts o m :
  (∃ fuel,
     finished (sampling_loop fuel init_s reference_line pts o (sample_time i) m)
     = true)
  ↔ match m !! Id o with
    | None =>
        never_in_region_from init_s reference_line o i
        ∧ look_ahead_reached_from i
    | Some _ =>
        Qltb (sample_time i) planned_trajectory_time = true →
        not_in_region init_s (sl_boundary_at reference_line o (sample_time i))
        = true
    end.
Proof.
  destruct (m !! Id o) as [r|] eqn:Hentry; split.
  - intros [fuel Hfin] Ht.
    destruct (not_in_region init_s
                (sl_boundary_at reference_line o (sample_time i))) eqn:Hin;
      [done|].
    by rewrite sampling_loop_stuck in Hfin.
  - intros Hout. exists 1%nat. simpl.
    destruct (Qltb (sample_time i) planned_trajectory_time) eqn:Ht; [|done].
    by rewrite loop_body_not_in_region, Hentry by auto.
  - intros [fuel Hfin].
    by apply (sampling_loop_finished_never fuel i _ _ pts _ m).
  - intros [Hnever (n & Hn & Hfar)]. exists (n - i)%nat.
    destruct (sampling_loop_ends (n - i) i init_s reference_line pts o m
                Hnever) as [t' ->]; [|done].
    by replace (i + (n - i))%nat with n by lia.
Qed.

Lemma for_obstacles_ends_at n init_s reference_line pts l m :
  Forall (λ o, trajectory_point_size o = 0%nat
               ∨ (never_in_region_from init_s reference_line o 0
                  ∧ Qltb (sample_time n) planned_trajectory_time = false)) l →
  for_obstacles n init_s reference_line pts l m = Finished m.
Proof.
  intros Hall. induction Hall as [|o l Ho Hl IH]; simpl; [done|].
  destruct Ho as [Hempty|[Hnever Hfar]].
  - unfold process_obstacle. rewrite Hempty. simpl. exact IH.
  - rewrite process_obstacle_ends; [exact IH|by right|done].
Qed.

(** The constructor returns exactly when every obstacle of the frame either
    has an empty trajectory, or is outside the region at every time the loop
    samples while the accumulated sample times reach the look-ahead. *)
Theorem build_returns_iff frame init_s reference_line pts :
  (∃ fuel,
     finished (PathTimeNeighborhood fuel frame init_s reference_line pts) = true)
  ↔ Forall (λ o, trajectory_point_size o = 0%nat
                 ∨ (never_in_region_from init_s reference_line o 0
                    ∧ look_ahead_reached_from 0))
      (obstacles frame).
Proof.
  split.
  - intros [fuel Hfin]. unfold PathTimeNeighborhood, SetupObstacles in Hfin.
    destruct (for_obstacles _ _ _ _ _ _) as [m1|] eqn:Hfor; [clear Hfin|done].
    revert Hfor. generalize (obstacles frame).
    induction l as [|o l IH]; simpl; [constructor|].
    destruct (process_obstacle _ _ _ _ _ _) as [m2|] eqn:Hturn; [|done].
    pose proof (process_obstacle_finished _ _ _ _ _ _ _ Hturn) as ->.
    intros Hrest. constructor; [|by apply IH].
    unfold process_obstacle in Hturn.
    destruct (Nat.eqb (trajectory_point_size o) 0) eqn:Hsize.
    { left. by apply Nat.eqb_eq. }
    right.
    apply (sampling_loop_finished_never fuel 0 _ _ pts _ ∅); [done|].
    simpl. by destruct (sampling_loop _ _ _ _ _ _ _).
  - intros Hall.
    assert (∃ n, Forall (λ o, trajectory_point_size o = 0%nat
                   ∨ (never_in_region_from init_s reference_line o 0
                      ∧ Qltb (sample_time n) planned_trajectory_time = false))
                   (obstacles frame)) as [n Hn].
    { induction Hall as [|o l Ho Hl [n IH]]; [by exists 0%nat|].
      destruct Ho as [Hempty|[Hnever (n' & _ & Hfar)]].
      - exists n. constructor; [by left|done].
      - exists n'. constructor; [by right|].
        eapply Forall_impl; [exact IH|].
        intros o' [?|[? _]]; [by left|by right]. }
    exists n. unfold PathTimeNeighborhood, SetupObstacles.
    by rewrite for_obstacles_ends_at.
Qed.

(** The object a returning constructor gives holds the initial state it was
    given and no region at all: [GetPathTimeObstacles] returns the empty
    list and [GetPathTimeObstacle] finds no identifier. *)
Theorem returned_object_is_empty fuel frame init_s reference_line pts this :
  PathTimeNeighborhood fuel frame init_s reference_line pts = Finished this →
  init_s_ this = init_s
  ∧ path_time_obstacle_map_ this = ∅
  ∧ GetPathTimeObstacles this = []
  ∧ ∀ id out, GetPathTimeObstacle this id out = (false, out, this).
Proof.
  intros Hrun.
  pose proof (PathTimeNeighborhood_finished _ _ _ _ _ _ Hrun) as Hempty.
  split; [|split; [done|split]].
  - unfold PathTimeNeighborhood in Hrun.
    destruct (SetupObstacles _ _ _ _ _ _); [|done]. by injection Hrun as <-.
  - unfold GetPathTimeObstacles. by rewrite Hempty, map_to_list_empty.
  - intros id out. unfold GetPathTimeObstacle. by rewrite Hempty, lookup_empty.
Qed.

(** A build pass that completes has written no sample: from any map, what it
    leaves is that map with the bounds of every region computed; no key is
    added and no corner or identifier changes. *)
Theorem completed_pass_only_sets_bounds fuel init_s frame reference_line pts
    m m' :
  SetupObstacles fuel init_s frame reference_line pts m = Finished m' →
  dom m' = dom m
  ∧ ∀ id r, m !! id = Some r →
      ∃ r', m' !! id = Some r'
        ∧ obstacle_id r' = obstacle_id r
        ∧ bottom_left r' = bottom_left r ∧ upper_left r' = upper_left r
        ∧ bottom_right r' = bottom_right r ∧ upper_right r' = upper_right r
        ∧ path_lower r'
          = std_min (pt_s (bottom_left r)) (pt_s (upper_left r))
        ∧ path_upper r'
          = std_max (pt_s (bottom_right r)) (pt_s (upper_right r))
        ∧ time_lower r'
          = std_min (pt_t (bottom_left r)) (pt_t (upper_left r))
        ∧ time_upper r'
          = std_max (pt_t (bottom_right r)) (pt_t (upper_right r)).
Proof.
  intros Hrun. apply SetupObstacles_finished in Hrun as ->.
  split; [apply dom_fmap_L|].
  intros id r Hr. exists (set_bounds r).
  by rewrite lookup_fmap, Hr.
Qed.

(** *** What the pass holds when it is started from the empty map *)

Lemma sampling_loop_from_empty_first fuel i init_s reference_line pts o :
  let m :=
    loop_map (sampling_loop fuel init_s reference_line pts o (sample_time i) ∅)
  in
  m = ∅
  ∨ ∃ j, (i <= j)%nat
      ∧ (∀ k, (i <= k < j)%nat →
           not_in_region init_s
             (sl_boundary_at reference_line o (sample_time k)) = true)
      ∧ Qltb (sample_time j) planned_trajectory_time = true
      ∧ not_in_region init_s (sl_boundary_at reference_line o (sample_time j))
        = false
      ∧ m = {[ Id o := written (Id o)
                 (sl_boundary_at reference_line o (sample_time j))
                 (sample_time j) None ]}.
Proof.
  revert i. induction fuel as [|fuel IH]; intros i; simpl.
  - destruct (Qltb _ _); by left.
  - destruct (Qltb (sample_time i) planned_trajectory_time) eqn:Ht; [|by left].
    destruct (not_in_region init_s
                (sl_boundary_at reference_line o (sample_time i))) eqn:Hin.
    + rewrite loop_body_not_in_region, lookup_empty by done.
      destruct (IH (S i)) as [Hempty|(j & Hij & Hbefore & Hj & Hjin & Hm)];
        [by left|].
      right. exists j. split; [lia|]. split; [|done].
      intros k Hk. destruct (decide (k = i)) as [->|Hne]; [done|].
      apply Hbefore. lia.
    + rewrite loop_body_in_region by done.
      rewrite sampling_loop_stuck by done. simpl. right. exists i.
      split; [done|]. split; [intros k Hk; lia|]. split; [done|].
      split; [done|].
      destruct fuel; by rewrite ?record_sample_again, record_sample_insert,
        lookup_empty.
Qed.

(** Started from the empty map, the build holds at most one region at any
    moment: a finished build holds none, and a build still running holds
    either none or the single region written from the first sample in the
    region of one obstacle of the frame, whose trajectory is not empty. *)
Theorem build_holds_at_most_one_region fuel frame init_s reference_line pts :
  match PathTimeNeighborhood fuel frame init_s reference_line pts with
  | Finished this => path_time_obstacle_map_ this = ∅
  | OutOfFuel m =>
      m = ∅
      ∨ ∃ o j, o ∈ obstacles frame
          ∧ trajectory_point_size o ≠ 0%nat
          ∧ (∀ k, (k < j)%nat →
               not_in_region init_s
                 (sl_boundary_at reference_line o (sample_time k)) = true)
          ∧ Qltb (sample_time j) planned_trajectory_time = true
          ∧ not_in_region init_s
              (sl_boundary_at reference_line o (sample_time j)) = false
          ∧ m = {[ Id o := written (Id o)
                     (sl_boundary_at reference_line o (sample_time j))
                     (sample_time j) None ]}
  end.
Proof.
  destruct (PathTimeNeighborhood _ _ _ _ _) as [this|m] eqn:Hrun.
  { by apply PathTimeNeighborhood_finished in Hrun. }
  unfold PathTimeNeighborhood, SetupObstacles in Hrun.
  destruct (for_obstacles _ _ _ _ _ _) as [m1|m1] eqn:Hfor; [done|].
  injection Hrun as <-. revert Hfor. generalize (obstacles frame).
  induction l as [|o l IH]; simpl; [done|].
  unfold process_obstacle.
  destruct (Nat.eqb (trajectory_point_size o) 0) eqn:Hsize.
  { intros Hrest.
    destruct (IH Hrest) as [?|(o' & j & Ho' & Hrest')]; [by left|].
    right. exists o', j. split; [by right|done]. }
  pose proof (sampling_loop_from_empty_first fuel 0 init_s reference_line
                pts o) as Hloop.
  simpl in Hloop.
  destruct (sampling_loop _ _ _ _ _ _ _) as [[t1 m2]|m2] eqn:E; simpl in *.
  - apply sampling_loop_finished in E as ->. intros Hrest.
    destruct (IH Hrest) as [?|(o' & j & Ho' & Hrest')]; [by left|].
    right. exists o', j. split; [by right|done].
  - intros [= <-].
    destruct Hloop as [?|(j & _ & Hbefore & Hj & Hjin & Hm)]; [by left|].
    right. exists o, j. split; [by left|].
    split; [by apply Nat.eqb_neq|].
    split; [|done]. intros k Hk. apply Hbefore. lia.
Qed.

(** *** The keys of the map *)

Lemma for_obstacles_keeps_in (P : obstacle_map → Prop) fuel init_s
    reference_line pts l m :
  (∀ o sl t' m', o ∈ l → P m' → P (record_sample (Id o) sl t' m')) →
  P m → P (reached_map (for_obstacles fuel init_s reference_line pts l m)).
Proof.
  revert m. induction l as [|o l IH]; intros m Hstep Hm; simpl; [done|].
  assert (∀ o' sl t' m', o' ∈ l → P m' → P (record_sample (Id o') sl t' m'))
    as Hrest.
  { intros o' sl t' m' Ho'. apply Hstep. by right. }
  unfold process_obstacle.
  destruct (Nat.eqb (trajectory_point_size o) 0); [by apply IH|].
  pose proof (sampling_loop_keeps P fuel init_s reference_line pts o 0 m
                (λ sl t' m', Hstep o sl t' m' (list_elem_of_here _ _)) Hm)
    as Hloop.
  destruct (sampling_loop _ _ _ _ _ _ _) as [[t' m']|m']; simpl in *.
  - by apply IH.
  - done.
Qed.

Lemma record_sample_dom id sl t m :
  dom (record_sample id sl t m) = {[ id ]} ∪ dom m.
Proof. by rewrite record_sample_insert, dom_insert_L. Qed.

(** The build pass never removes an entry, and the keys it adds are
    identifiers of obstacles of the frame. *)
Theorem pass_keeps_keys_and_adds_frame_ids fuel init_s frame reference_line
    pts m :
  let m' := reached_map (SetupObstacles fuel init_s frame reference_line pts m)
  in
  dom m ⊆ dom m'
  ∧ dom m' ⊆ dom m ∪ list_to_set (Id <$> obstacles frame).
Proof.
  simpl. unfold SetupObstacles.
  set (ids := list_to_set (Id <$> obstacles frame) : gset string).
  assert (let m1 := reached_map (for_obstacles fuel init_s reference_line pts
                                   (obstacles frame) m) in
          dom m ⊆ dom m1 ∧ dom m1 ⊆ dom m ∪ ids) as Hfor.
  { apply (for_obstacles_keeps_in (λ m1, dom m ⊆ dom m1 ∧ dom m1 ⊆ dom m ∪ ids)).
    - intros o sl t' m1 Ho [Hsub Hsup]. rewrite record_sample_dom.
      assert (Id o ∈ ids) as Hid.
      { apply elem_of_list_to_set. by apply list_elem_of_fmap_2. }
      split.
      + by apply union_subseteq_r'.
      + apply union_subseteq. split; [|done].
        apply singleton_subseteq_l. apply elem_of_union. by right.
    - split; [done|]. apply union_subseteq_l. }
  simpl in Hfor.
  destruct (for_obstacles _ _ _ _ _ _) as [m1|m1]; simpl in *; [|done].
  by rewrite dom_fmap_L.
Qed.

(** The sampling loop of an obstacle leaves the entries of all other
    identifiers as they are, however long it runs. *)
Theorem sampling_loop_leaves_other_entries fuel init_s reference_line pts
    o t m id :
  Id o ≠ id →
  loop_map (sampling_loop fuel init_s reference_line pts o t m) !! id
  = m !! id.
Proof.
  intros Hne.
  apply (sampling_loop_keeps (λ m', m' !! id = m !! id)); [|done].
  intros sl t' m' Hm'. by rewrite record_sample_lookup_ne.
Qed.

(** An entry under an identifier that no obstacle of the frame carries goes
    through the pass untouched until the bounds are computed: a pass still
    running holds it as it was, a completed pass holds it with its bounds
    set. *)
Theorem pass_leaves_foreign_entries fuel init_s frame reference_line pts m id :
  id ∉ (Id <$> obstacles frame) →
  match SetupObstacles fuel init_s frame reference_line pts m with
  | Finished m' => m' !! id = set_bounds <$> m !! id
  | OutOfFuel m' => m' !! id = m !! id
  end.
Proof.
  intros Hforeign. unfold SetupObstacles.
  pose proof (for_obstacles_keeps_in (λ m', m' !! id = m !! id)
    fuel init_s reference_line pts (obstacles frame) m) as Hfor.
  simpl in Hfor.
  assert (reached_map (for_obstacles fuel init_s reference_line pts
                         (obstacles frame) m) !! id = m !! id) as Hsame.
  { apply Hfor; [|done]. intros o sl t' m' Ho Hm'.
    rewrite record_sample_lookup_ne; [done|].
    intros Heq. apply Hforeign. rewrite <- Heq. by apply list_elem_of_fmap_2. }
  destruct (for_obstacles _ _ _ _ _ _) as [m1|m1]; simpl in *.
  - by rewrite lookup_fmap, Hsame.
  - done.
Qed.

(** *** The writes of one pass through the body *)

(** After a pass through the body with a sample in the region, the obstacle
    has an entry whose right corners carry the sample; if it had no entry
    before, the entry is new, with its identifier and its left corners set
    from the same sample and its four bounds still zero; if it had one, its
    identifier, left corners and bounds are the old ones. *)
Theorem body_in_region_writes init_s reference_line pts o t m :
  not_in_region init_s (sl_boundary_at reference_line o t) = false →
  let sl := sl_boundary_at reference_line o t in
  ∃ r, (loop_body init_s reference_line pts o t m).2 !! Id o = Some r
    ∧ bottom_right r = SetPathTimePoint (Id o) (start_s sl) t
    ∧ upper_right r = SetPathTimePoint (Id o) (end_s sl) t
    ∧ match m !! Id o with
      | None =>
          obstacle_id r = Id o
          ∧ bottom_left r = SetPathTimePoint (Id o) (start_s sl) t
          ∧ upper_left r = SetPathTimePoint (Id o) (end_s sl) t
          ∧ path_lower r = 0 ∧ path_upper r = 0
          ∧ time_lower r = 0 ∧ time_upper r = 0
      | Some r0 =>
          obstacle_id r = obstacle_id r0
          ∧ bottom_left r = bottom_left r0 ∧ upper_left r = upper_left r0
          ∧ path_lower r = path_lower r0 ∧ path_upper r = path_upper r0
          ∧ time_lower r = time_lower r0 ∧ time_upper r = time_upper r0
      end.
Proof.
  intros Hin sl. rewrite loop_body_in_region by done. simpl.
  rewrite record_sample_lookup. eexists. split; [done|].
  by destruct (m !! Id o).
Qed.

(** *** The bounds a completed pass leaves *)

Lemma std_min_le_r (a b : Q) : std_min a b <= b.
Proof.
  unfold std_min. destruct (Qltb b a) eqn:E.
  - apply Qle_refl.
  - by apply Qltb_ge.
Qed.

Lemma std_max_ge_r (a b : Q) : b <= std_max a b.
Proof.
  unfold std_max. destruct (Qltb a b) eqn:E.
  - apply Qle_refl.
  - by apply Qltb_ge.
Qed.

(** In the map of a completed pass, [path_lower] and [time_lower] of a region
    are at most the [s] and [t] of both of its left corners, and
    [path_upper] and [time_upper] at least those of both of its right
    corners. *)
Theorem bounds_enclose_corners fuel init_s frame reference_line pts m m' id r :
  SetupObstacles fuel init_s frame reference_line pts m = Finished m' →
  m' !! id = Some r →
  (path_lower r <= pt_s (bottom_left r) ∧ path_lower r <= pt_s (upper_left r))
  ∧ (pt_s (bottom_right r) <= path_upper r
     ∧ pt_s (upper_right r) <= path_upper r)
  ∧ (time_lower r <= pt_t (bottom_left r)
     ∧ time_lower r <= pt_t (upper_left r))
  ∧ (pt_t (bottom_right r) <= time_upper r
     ∧ pt_t (upper_right r) <= time_upper r).
Proof.
  intros Hrun Hr. apply SetupObstacles_finished in Hrun as ->.
  rewrite lookup_fmap in Hr.
  destruct (m !! id) as [r0|]; [|done]. injection Hr as <-. simpl.
  repeat split;
    auto using std_min_le_l, std_min_le_r, std_max_ge_l, std_max_ge_r.
Qed.

(** For a region whose two left corners carry one time and whose two right
    corners carry one time, a completed pass leaves [time_lower] equal to
    the time of the left corners and [time_upper] equal to the time of the
    right corners. *)
Theorem time_bounds_are_corner_times fuel init_s frame reference_line pts
    m m' id r :
  SetupObstacles fuel init_s frame reference_line pts m = Finished m' →
  m' !! id = Some r →
  pt_t (bottom_left r) = pt_t (upper_left r) →
  pt_t (bottom_right r) = pt_t (upper_right r) →
  time_lower r = pt_t (bottom_left r) ∧ time_upper r = pt_t (bottom_right r).
Proof.
  intros Hrun Hr. apply SetupObstacles_finished in Hrun as ->.
  rewrite lookup_fmap in Hr.
  destruct (m !! id) as [r0|] eqn:Hr0; [|done]. injection Hr as <-. simpl.
  intros Hleft Hright. unfold std_min, std_max. rewrite <- Hleft, <- Hright.
  split; by destruct (Qltb _ _).
Qed.

(** *** The two queries together *)

(** [GetPathTimeObstacles] returns one region per key of the map, and a
    region is in its list exactly when [GetPathTimeObstacle] returns it for
    some identifier. *)
Theorem GetPathTimeObstacles_lists_the_entries (this : Neighborhood) out :
  length (GetPathTimeObstacles this) = size (path_time_obstacle_map_ this)
  ∧ ∀ r, r ∈ GetPathTimeObstacles this
         ↔ ∃ id, GetPathTimeObstacle this id out = (true, r, this).
Proof.
  destruct this as [a m]. unfold GetPathTimeObstacles, GetPathTimeObstacle.
  simpl. split.
  - by rewrite length_fmap, length_map_to_list.
  - intros r. rewrite list_elem_of_fmap. split.
    + intros ([id r'] & -> & Hentry). apply elem_of_map_to_list in Hentry.
      exists id. unfold map_index. by rewrite Hentry.
    + intros [id Hget]. exists (id, r). split; [done|].
      apply elem_of_map_to_list. unfold map_index in Hget.
      destruct (m !! id) as [r'|]; [|done]. by injection Hget as ->.
Qed.

(** Where every region carries the key it is stored under, the regions
    [GetPathTimeObstacles] returns have pairwise different identifiers, and
    asking [GetPathTimeObstacle] for the identifier of any of them gives
    that region back. *)
Theorem listed_regions_found_by_their_id (this : Neighborhood) :
  map_Forall (λ id r, obstacle_id r = id) (path_time_obstacle_map_ this) →
  NoDup (obstacle_id <$> GetPathTimeObstacles this)
  ∧ ∀ r out, r ∈ GetPathTimeObstacles this →
      GetPathTimeObstacle this (obstacle_id r) out = (true, r, this).
Proof.
  destruct this as [a m]. unfold GetPathTimeObstacles, GetPathTimeObstacle.
  simpl. intros Hkeys. split.
  - assert (obstacle_id <$> (map_to_list m).*2 = (map_to_list m).*1) as ->.
    { rewrite <- list_fmap_compose. apply Forall_fmap_ext, Forall_forall.
      intros [id r] Hentry. apply elem_of_map_to_list in Hentry.
      exact (Hkeys id r Hentry). }
    apply NoDup_fst_map_to_list.
  - intros r out Hr. apply list_elem_of_fmap in Hr as ([id r'] & -> & Hentry).
    apply elem_of_map_to_list in Hentry. simpl.
    rewrite (Hkeys id r' Hentry).
    unfold map_index. by rewrite Hentry.
Qed.

(** *** The relevance test *)

(** A box that spans the lane from beyond the threshold on one side to
    beyond it on the other is treated as outside the region, wherever it is
    along the path. *)
Theorem box_across_the_lane_is_filtered init_s sl :
  start_l sl < - lateral_enter_lane_thred →
  lateral_enter_lane_thred < end_l sl →
  not_in_region init_s sl = true.
Proof.
  intros Hleft Hright. unfold not_in_region.
  apply orb_true_iff. right. apply andb_true_iff. split; apply Qltb_lt.
  - apply Qlt_le_trans with (- start_l sl); [lra|].
    rewrite <- Qabs_opp. apply Qle_Qabs.
  - apply Qlt_le_trans with (end_l sl); [done|]. apply Qle_Qabs.
Qed.

End MoreProperties.

(** ** The further theorems at work on the scenario *)

Lemma returned_object_is_empty_witness :
  let this := {| init_s_ := Scenario.init_s; path_time_obstacle_map_ := ∅ |} in
  Scenario.build 10 [Scenario.obstacle_B; Scenario.obstacle_E] = Finished this
  ∧ init_s_ this = Scenario.init_s
  ∧ path_time_obstacle_map_ this = ∅
  ∧ GetPathTimeObstacles this = []
  ∧ ∀ id out, GetPathTimeObstacle this id out = (false, out, this).
Proof.
  intros this.
  assert (Scenario.build 10 [Scenario.obstacle_B; Scenario.obstacle_E]
          = Finished this) as Hrun by by vm_compute.
  split; [exact Hrun|].
  exact (returned_object_is_empty (params := Scenario.params)
           (arith := Scenario.arith) (math := Scenario.math)
           (matcher := Scenario.matcher)
           10 (Scenario.frame_of [Scenario.obstacle_B; Scenario.obstacle_E])
           Scenario.init_s Scenario.reference_line [] this Hrun).
Defined.

Lemma completed_pass_only_sets_bounds_witness :
  let m' : obstacle_map := {[ "P" := set_bounds Scenario.region_P ]} in
  Scenario.setup 10 [Scenario.obstacle_B; Scenario.obstacle_E] Scenario.map_P
  = Finished m'
  ∧ dom m' = dom Scenario.map_P
  ∧ ∀ id r, Scenario.map_P !! id = Some r →
      ∃ r', m' !! id = Some r'
        ∧ obstacle_id r' = obstacle_id r
        ∧ bottom_left r' = bottom_left r ∧ upper_left r' = upper_left r
        ∧ bottom_right r' = bottom_right r ∧ upper_right r' = upper_right r
        ∧ path_lower r'
          = std_min (pt_s (bottom_left r)) (pt_s (upper_left r))
        ∧ path_upper r'
          = std_max (pt_s (bottom_right r)) (pt_s (upper_right r))
        ∧ time_lower r'
          = std_min (pt_t (bottom_left r)) (pt_t (upper_left r))
        ∧ time_upper r'
          = std_max (pt_t (bottom_right r)) (pt_t (upper_right r)).
Proof.
  intros m'.
  assert (Scenario.setup 10 [Scenario.obstacle_B; Scenario.obstacle_E]
            Scenario.map_P = Finished m') as Hrun by by vm_compute.
  split; [exact Hrun|].
  exact (completed_pass_only_sets_bounds (params := Scenario.params)
           (arith := Scenario.arith) (math := Scenario.math)
           (matcher := Scenario.matcher)
           10 Scenario.init_s
           (Scenario.frame_of [Scenario.obstacle_B; Scenario.obstacle_E])
           Scenario.reference_line [] Scenario.map_P m' Hrun).
Defined.

Lemma sampling_loop_leaves_other_entries_witness :
  Id Scenario.obstacle_A ≠ "P"
  ∧ loop_map (Scenario.loop 3 Scenario.obstacle_A 0 Scenario.map_P) !! "P"
    = Scenario.map_P !! "P".
Proof.
  assert (Id Scenario.obstacle_A ≠ "P") as Hne by discriminate.
  split; [exact Hne|].
  exact (sampling_loop_leaves_other_entries (params := Scenario.params)
           (arith := Scenario.arith) (math := Scenario.math)
           (matcher := Scenario.matcher)
           3 Scenario.init_s Scenario.reference_line [] Scenario.obstacle_A 0
           Scenario.map_P "P" Hne).
Defined.

Lemma pass_leaves_foreign_entries_witness :
  ("P" ∉ (Id <$> obstacles (Scenario.frame_of [Scenario.obstacle_A])))
  ∧ match Scenario.setup 3 [Scenario.obstacle_A] Scenario.map_P with
    | Finished m' => m' !! "P" = set_bounds <$> Scenario.map_P !! "P"
    | OutOfFuel m' => m' !! "P" = Scenario.map_P !! "P"
    end.
Proof.
  assert ("P" ∉ (Id <$> obstacles (Scenario.frame_of [Scenario.obstacle_A])))
    as Hforeign.
  { simpl. intros Hin. apply list_elem_of_In in Hin.
    destruct Hin as [Heq|[]]. discriminate Heq. }
  split; [exact Hforeign|].
  exact (pass_leaves_foreign_entries (params := Scenario.params)
           (arith := Scenario.arith) (math := Scenario.math)
           (matcher := Scenario.matcher)
           3 Scenario.init_s (Scenario.frame_of [Scenario.obstacle_A])
           Scenario.reference_line [] Scenario.map_P "P" Hforeign).
Defined.

Lemma body_in_region_writes_witness :
  let sl := sl_boundary_at Scenario.reference_line Scenario.obstacle_A 0 in
  not_in_region (params := Scenario.params) (arith := Scenario.arith) Scenario.init_s sl = false
  ∧ ∃ r, (Scenario.body Scenario.obstacle_A 0 ∅).2 !! Id Scenario.obstacle_A
         = Some r
    ∧ bottom_right r = SetPathTimePoint (Id Scenario.obstacle_A) (start_s sl) 0
    ∧ upper_right r = SetPathTimePoint (Id Scenario.obstacle_A) (end_s sl) 0
    ∧ match (∅ : obstacle_map) !! Id Scenario.obstacle_A with
      | None =>
          obstacle_id r = Id Scenario.obstacle_A
          ∧ bottom_left r
            = SetPathTimePoint (Id Scenario.obstacle_A) (start_s sl) 0
          ∧ upper_left r
            = SetPathTimePoint (Id Scenario.obstacle_A) (end_s sl) 0
          ∧ path_lower r = 0 ∧ path_upper r = 0
          ∧ time_lower r = 0 ∧ time_upper r = 0
      | Some r0 =>
          obstacle_id r = obstacle_id r0
          ∧ bottom_left r = bottom_left r0 ∧ upper_left r = upper_left r0
          ∧ path_lower r = path_lower r0 ∧ path_upper r = path_upper r0
          ∧ time_lower r = time_lower r0 ∧ time_upper r = time_upper r0
      end.
Proof.
  intros sl. split; [reflexivity|].
  exact (body_in_region_writes (params := Scenario.params)
           (arith := Scenario.arith) (math := Scenario.math)
           (matcher := Scenario.matcher)
           Scenario.init_s Scenario.reference_line [] Scenario.obstacle_A 0 ∅
           eq_refl).
Defined.

Lemma bounds_enclose_corners_witness :
  let m' : obstacle_map := {[ "P" := set_bounds Scenario.region_P ]} in
  let r := set_bounds Scenario.region_P in
  Scenario.setup 10 [Scenario.obstacle_B; Scenario.obstacle_E] Scenario.map_P
  = Finished m'
  ∧ m' !! "P" = Some r
  ∧ (path_lower r <= pt_s (bottom_left r) ∧ path_lower r <= pt_s (upper_left r))
  ∧ (pt_s (bottom_right r) <= path_upper r
     ∧ pt_s (upper_right r) <= path_upper r)
  ∧ (time_lower r <= pt_t (bottom_left r)
     ∧ time_lower r <= pt_t (upper_left r))
  ∧ (pt_t (bottom_right r) <= time_upper r
     ∧ pt_t (upper_right r) <= time_upper r).
Proof.
  intros m' r.
  assert (Scenario.setup 10 [Scenario.obstacle_B; Scenario.obstacle_E]
            Scenario.map_P = Finished m') as Hrun by by vm_compute.
  assert (m' !! "P" = Some r) as Hr by by vm_compute.
  split; [exact Hrun|]. split; [exact Hr|].
  exact (bounds_enclose_corners (params := Scenario.params)
           (arith := Scenario.arith) (math := Scenario.math)
           (matcher := Scenario.matcher)
           10 Scenario.init_s
           (Scenario.frame_of [Scenario.obstacle_B; Scenario.obstacle_E])
           Scenario.reference_line [] Scenario.map_P m' "P" r Hrun Hr).
Defined.

Lemma time_bounds_are_corner_times_witness :
  let m' : obstacle_map := {[ "P" := set_bounds Scenario.region_P ]} in
  let r := set_bounds Scenario.region_P in
  Scenario.setup 10 [Scenario.obstacle_B; Scenario.obstacle_E] Scenario.map_P
  = Finished m'
  ∧ m' !! "P" = Some r
  ∧ pt_t (bottom_left r) = pt_t (upper_left r)
  ∧ pt_t (bottom_right r) = pt_t (upper_right r)
  ∧ time_lower r = pt_t (bottom_left r) ∧ time_upper r = pt_t (bottom_right r).
Proof.
  intros m' r.
  assert (Scenario.setup 10 [Scenario.obstacle_B; Scenario.obstacle_E]
            Scenario.map_P = Finished m') as Hrun by by vm_compute.
  assert (m' !! "P" = Some r) as Hr by by vm_compute.
  split; [exact Hrun|]. split; [exact Hr|].
  split; [reflexivity|]. split; [reflexivity|].
  exact (time_bounds_are_corner_times (params := Scenario.params)
           (arith := Scenario.arith)
           (math := Scenario.math) (matcher := Scenario.matcher)
           10 Scenario.init_s
           (Scenario.frame_of [Scenario.obstacle_B; Scenario.obstacle_E])
           Scenario.reference_line [] Scenario.map_P m' "P" r Hrun Hr
           eq_refl eq_refl).
Defined.

Lemma listed_regions_found_by_their_id_witness :
  let this :=
    {| init_s_ := Scenario.init_s; path_time_obstacle_map_ := Scenario.map_P |}
  in
  map_Forall (λ id r, obstacle_id r = id) (path_time_obstacle_map_ this)
  ∧ NoDup (obstacle_id <$> GetPathTimeObstacles this)
  ∧ ∀ r out, r ∈ GetPathTimeObstacles this →
      GetPathTimeObstacle this (obstacle_id r) out = (true, r, this).
Proof.
  intros this.
  assert (map_Forall (λ id r, obstacle_id r = id)
            (path_time_obstacle_map_ this)) as Hkeys.
  { by apply map_Forall_singleton. }
  split; [exact Hkeys|].
  exact (listed_regions_found_by_their_id this Hkeys).
Defined.

Lemma box_across_the_lane_is_filtered_witness :
  let sl := Scenario.boundary 10 12 (- (3)) 3 in
  start_l sl < - lateral_enter_lane_thred (LatticeParams := Scenario.params)
  ∧ lateral_enter_lane_thred (LatticeParams := Scenario.params) < end_l sl
  ∧ not_in_region (params := Scenario.params) (arith := Scenario.arith) Scenario.init_s sl = true.
Proof.
  intros sl.
  assert (start_l sl
          < - lateral_enter_lane_thred (LatticeParams := Scenario.params))
    as Hleft by reflexivity.
  assert (lateral_enter_lane_thred (LatticeParams := Scenario.params)
          < end_l sl) as Hright by reflexivity.
  split; [exact Hleft|]. split; [exact Hright|].
  exact (box_across_the_lane_is_filtered (params := Scenario.params) (arith := Scenario.arith)
           Scenario.init_s sl Hleft Hright).
Defined.
